(** * leeway: the build reporter (pkg/leeway/reporter.go)

    A shallow embedding of [ConsoleReporter] and [CompositeReporter] and
    the properties of the reporting layer stated over it.

    Go strings and byte slices are [string] (one [ascii] per byte).  The
    process-wide standard output, the reporter's [writer] map, the
    [PrefixWriter] objects it points to and the order in which the
    reporter touches its mutex are threaded through a state monad. *)

From Stdlib Require Import Ascii String.
From stdpp Require Import base strings list gmap sorting.

#[local] Set Warnings "-clear-no-such-hyp".

(** ** Bytes and strings *)

(** The Go escapes [\t] and [\n]. *)
Definition TAB : string := String "009"%char EmptyString.
Definition LF : string := String "010"%char EmptyString.
Definition newline : ascii := "010"%char.

(** [strings.Join(lines, "")]. *)
Fixpoint strings_Join (lines : list string) : string :=
  match lines with
  | [] => EmptyString
  | l :: rest => l +:+ strings_Join rest
  end.

(** [strings.Contains(s, sub)], used to inspect rendered text. *)
Fixpoint strings_Contains (s sub : string) : bool :=
  String.prefix sub s
  || match s with
     | EmptyString => false
     | String _ s' => strings_Contains s' sub
     end.

(** Go compares strings with [<] byte by byte; [String.ltb] is that order. *)
Definition lines_less (a b : string) : bool := String.ltb a b.

(** The order [sort.Slice] establishes from [lines_less]: [a] may stand
    before [b] when [b] is not less than [a]. *)
Definition lines_le (a b : string) : Prop := lines_less b a = false.

#[global] Instance lines_le_dec : RelDecision lines_le.
Proof. intros a b. unfold lines_le. apply _. Defined.

(** [sort.Slice(lines, less)].  The Go library does not fix the algorithm;
    [sort_Slice_unique] below shows that for this comparison every correct
    sort returns the same slice, so merge sort stands for it. *)
Definition sort_Slice (lines : list string) : list string :=
  merge_sort lines_le lines.

(** ** The packages handed to the reporter *)

(** A Go [error] is rendered with [%s], that is by its message. *)
Definition error : Type := string.

Inductive VersionResult : Type :=
  | VersionOk (version : string)
  | VersionErr (err : error).

(** Modelled from the spec: the [Package] struct, declared outside
    reporter.go.  The reporter only calls [FullName()] ("a stable full
    name") and [Version()] ("a lookup that may fail"). *)
Record Package : Type := {
  FullName : string;
  Version : VersionResult
}.

(** Modelled from the spec: the [PackageBuildStatus] enumeration, declared
    outside reporter.go: "Built (already satisfied from cache) | Pending
    (must be built)". *)
Inductive PackageBuildStatus : Type :=
  | PackageBuilt
  | PackagePending.

(** [map[*Package]PackageBuildStatus]: keys are pointers, so two entries
    never coincide even when the packages they point to look alike.  The
    map is given by its entries in the order the [range] statement yields
    them; Go leaves that order open, and the theorems quantify over every
    permutation. *)
Definition StatusMap : Type := list (Package * PackageBuildStatus).

(** ** The terminal libraries

    gookit/color and text/tabwriter decide at run time (terminal
    capabilities, the global [color.Enable]) what bytes a style becomes.
    The reporter is the same program for each of these behaviours. *)

Inductive Color : Type := Green | Yellow | Gray.

Record Terminal : Type := {
  (** [Color.Sprint], [Color.Sprintf] and [Color.Render]: a text in one colour *)
  paint : Color -> string -> string;
  (** [color.Render], also applied by [color.Sprintf], [color.Printf] and
      [color.Println]: the tags [<red>], [</>], ... replaced *)
  Render : string -> string;
  (** what a [tabwriter.NewWriter(os.Stdout, 0, 2, 2, ' ', 0)] emits on
      [Flush] for the text written to it *)
  tabwriter : string -> string
}.

(** A terminal without colour support: styles vanish and tags are removed;
    columns are left as they are. *)
Fixpoint ClearTag (in_tag : bool) (s : string) : string :=
  match s with
  | EmptyString => EmptyString
  | String c s' =>
      if in_tag then
        if Ascii.eqb c ">"%char then ClearTag false s' else ClearTag true s'
      else if Ascii.eqb c "<"%char then ClearTag true s'
      else String c (ClearTag false s')
  end.

Definition plain : Terminal :=
  {| paint := fun _ s => s; Render := ClearTag false; tabwriter := fun s => s |}.

(** ** textio.PrefixWriter

    The sink of one package: "an implementation of io.Writer which places
    a prefix before every line".  Bytes of a line that is not complete yet
    stay in [buffer]. *)
Record PrefixWriter : Type := {
  indent : string;
  buffer : string
}.

(** [NewPrefixWriter(os.Stdout, indent)] before it is put on the heap. *)
Definition NewPrefixWriter_value (indent : string) : PrefixWriter :=
  {| indent := indent; buffer := EmptyString |}.

(** [w.Write(b)]: the bytes that reach the underlying writer and the
    writer afterwards. *)
Fixpoint PrefixWriter_Write (w : PrefixWriter) (b : string) : string * PrefixWriter :=
  match b with
  | EmptyString => (EmptyString, w)
  | String c b' =>
      if Ascii.eqb c newline then
        let '(out, w') := PrefixWriter_Write {| indent := indent w; buffer := EmptyString |} b' in
        (indent w +:+ buffer w +:+ LF +:+ out, w')
      else
        PrefixWriter_Write {| indent := indent w; buffer := buffer w +:+ String c EmptyString |} b'
  end.

(** ** The state the reporter runs in *)

(** What a goroutine does to [r.mu] and to the map [r.writer], in program
    order. *)
Inductive RegistryOp : Type :=
  | MuLock
  | MuUnlock
  | MuRLock
  | MuRUnlock
  | MapLoad (key : string)
  | MapStore (key : string)
  | MapDelete (key : string).

Record World : Type := {
  (** the bytes written to [os.Stdout] so far *)
  stdout : string;
  (** the [*PrefixWriter] objects allocated so far; a pointer is an index *)
  heap : list PrefixWriter;
  (** [r.writer], as made by [NewConsoleReporter] *)
  writer : gmap string nat;
  (** the mutex and map operations performed so far *)
  ops : list RegistryOp;
  (** logrus entries at debug level: the [package] field and the message *)
  debuglog : list (string * string)
}.

(** [NewConsoleReporter()] in a process that has printed nothing yet. *)
Definition NewConsoleReporter : World :=
  {| stdout := EmptyString; heap := []; writer := ∅; ops := []; debuglog := [] |}.

Definition M (A : Type) : Type := World -> A * World.

#[global] Instance M_ret : MRet M := fun _ a σ => (a, σ).
#[global] Instance M_bind : MBind M := fun _ _ k m σ => k (m σ).1 (m σ).2.

Definition exec {A} (m : M A) (σ : World) : World := (m σ).2.

Definition record_op (op : RegistryOp) : M unit := fun σ =>
  (tt, {| stdout := stdout σ; heap := heap σ; writer := writer σ;
          ops := ops σ ++ [op]; debuglog := debuglog σ |}).

(** [r.mu.Lock()], [r.mu.Unlock()], [r.mu.RLock()], [r.mu.RUnlock()]. *)
Definition mu_Lock : M unit := record_op MuLock.
Definition mu_Unlock : M unit := record_op MuUnlock.
Definition mu_RLock : M unit := record_op MuRLock.
Definition mu_RUnlock : M unit := record_op MuRUnlock.

(** [out, ok := r.writer[nme]]. *)
Definition writer_load (nme : string) : M (option nat) := fun σ =>
  (writer σ !! nme,
   {| stdout := stdout σ; heap := heap σ; writer := writer σ;
      ops := ops σ ++ [MapLoad nme]; debuglog := debuglog σ |}).

(** [r.writer[nme] = out]. *)
Definition writer_store (nme : string) (out : nat) : M unit := fun σ =>
  (tt, {| stdout := stdout σ; heap := heap σ; writer := <[nme := out]> (writer σ);
          ops := ops σ ++ [MapStore nme]; debuglog := debuglog σ |}).

(** [delete(r.writer, nme)]. *)
Definition writer_delete (nme : string) : M unit := fun σ =>
  (tt, {| stdout := stdout σ; heap := heap σ; writer := delete nme (writer σ);
          ops := ops σ ++ [MapDelete nme]; debuglog := debuglog σ |}).

(** [textio.NewPrefixWriter(os.Stdout, indent)]: a new object, whose
    pointer is returned. *)
Definition NewPrefixWriter (indent : string) : M nat := fun σ =>
  (length (heap σ),
   {| stdout := stdout σ; heap := heap σ ++ [NewPrefixWriter_value indent];
      writer := writer σ; ops := ops σ; debuglog := debuglog σ |}).

(** [out.Write(buf)] and [io.WriteString(out, s)] for [out] a
    [*PrefixWriter] over [os.Stdout].  Every pointer the reporter holds
    comes from [NewPrefixWriter] (see [wf_World]); on any other the model
    writes nothing. *)
Definition out_Write (out : nat) (buf : string) : M unit := fun σ =>
  match heap σ !! out with
  | Some w =>
      let r := PrefixWriter_Write w buf in
      (tt, {| stdout := stdout σ +:+ r.1; heap := <[out := r.2]> (heap σ);
              writer := writer σ; ops := ops σ; debuglog := debuglog σ |})
  | None => (tt, σ)
  end.

(** A write that goes to [os.Stdout] directly. *)
Definition Stdout_Write (s : string) : M unit := fun σ =>
  (tt, {| stdout := stdout σ +:+ s; heap := heap σ; writer := writer σ;
          ops := ops σ; debuglog := debuglog σ |}).

(** [log.WithField("package", nme).Debug(msg)]. *)
Definition log_Debug (nme msg : string) : M unit := fun σ =>
  (tt, {| stdout := stdout σ; heap := heap σ; writer := writer σ;
          ops := ops σ; debuglog := debuglog σ ++ [(nme, msg)] |}).

(** ** The Reporter interface *)

Module Reporter.
(** An implementation over its own state [W]; the methods return nothing. *)
Record t (W : Type) : Type := {
  BuildStarted : Package -> StatusMap -> W -> W;
  BuildFinished : Package -> option error -> W -> W;
  PackageBuildStarted : Package -> W -> W;
  PackageBuildLog : Package -> bool -> string -> W -> W;
  PackageBuildFinished : Package -> option error -> W -> W
}.
Arguments BuildStarted {W}.
Arguments BuildFinished {W}.
Arguments PackageBuildStarted {W}.
Arguments PackageBuildLog {W}.
Arguments PackageBuildFinished {W}.
End Reporter.

(** ** ConsoleReporter *)

Module ConsoleReporter.
Section WithTerminal.
Variable term : Terminal.

Definition getRunPrefix (p : Package) : string :=
  paint term Gray ("[" +:+ FullName p +:+ "] ").

(** [version, err := pkg.Version(); if err != nil { version = "unknown" }]. *)
Definition version_of (pkg : Package) : string :=
  match Version pkg with
  | VersionOk version => version
  | VersionErr _ => "unknown"
  end.

(** One pass of the loop body of [BuildStarted]: the value of [lines[i]]. *)
Definition status_line (entry : Package * PackageBuildStatus) : string :=
  let '(pkg, status) := entry in
  let version := version_of pkg in
  match status with
  | PackageBuilt =>
      paint term Green ("📦" +:+ TAB +:+ "cached") +:+ TAB +:+ FullName pkg +:+ TAB
      +:+ paint term Gray ("(version " +:+ version +:+ ")") +:+ LF
  | _ =>
      paint term Yellow ("🔧" +:+ TAB +:+ "build") +:+ TAB +:+ FullName pkg +:+ TAB
      +:+ paint term Gray ("(version " +:+ version +:+ ")") +:+ LF
  end.

(** The slice [lines] after [sort.Slice]. *)
Definition BuildStarted_lines (status : StatusMap) : list string :=
  sort_Slice (map status_line status).

Definition BuildStarted (pkg : Package) (status : StatusMap) : M unit :=
  let lines := BuildStarted_lines status in
  Stdout_Write (tabwriter term (strings_Join lines +:+ LF)).

(** [color.Printf(format, a...)] and [color.Println(a)] with the format
    already filled in: the tags are rendered and the text goes to
    [os.Stdout], for [Println] with a line feed after it.
    [color.Sprintf] and [color.Render] return the rendered text. *)
Definition color_Printf (text : string) : M unit := Stdout_Write (Render term text).
Definition color_Println (text : string) : M unit := Stdout_Write (Render term text +:+ LF).
Definition color_Sprintf (text : string) : string := Render term text.
Definition color_Render (text : string) : string := Render term text.

Definition BuildFinished (pkg : Package) (err : option error) : M unit :=
  match err with
  | Some e =>
      color_Printf ("<red>build failed</>" +:+ LF +:+ "<white>Reason:</> " +:+ e +:+ LF)
  | None =>
      color_Println (LF +:+ "<green>build succeded</>")
  end.

Definition PackageBuildStarted (pkg : Package) : M unit :=
  let nme := FullName pkg in
  out ← NewPrefixWriter (getRunPrefix pkg);
  mu_Lock;;
  writer_store nme out;;
  mu_Unlock;;
  let version := version_of pkg in
  out_Write out
    (color_Sprintf ("<fg=yellow>build started</> <gray>(version " +:+ version +:+ ")</>"
                    +:+ LF)).

Definition PackageBuildLog (pkg : Package) (isErr : bool) (buf : string) : M unit :=
  let nme := FullName pkg in
  mu_RLock;;
  found ← writer_load nme;
  mu_RUnlock;;
  out ← match found with
        | Some out => mret out
        | None =>
            mu_Lock;;
            out ← NewPrefixWriter (getRunPrefix pkg);
            writer_store nme out;;
            log_Debug nme "saw build log output before the build started";;
            mu_Unlock;;
            mret out
        end;
  out_Write out buf.

Definition PackageBuildFinished (pkg : Package) (err : option error) : M unit :=
  let msg :=
    match err with
    | None => color_Render ("<green>package build succeded</>" +:+ LF)
    | Some e =>
        color_Sprintf ("<red>package build failed</>" +:+ LF
                       +:+ "<white>Reason:</> " +:+ e +:+ LF)
    end in
  let nme := FullName pkg in
  mu_RLock;;
  found ← writer_load nme;
  mu_RUnlock;;
  out ← match found with
        | Some out => mret out
        | None => NewPrefixWriter (getRunPrefix pkg)
        end;
  out_Write out msg;;
  writer_delete nme.

(** [*ConsoleReporter] as a [Reporter]. *)
Definition reporter : Reporter.t World :=
  {| Reporter.BuildStarted pkg status := exec (BuildStarted pkg status);
     Reporter.BuildFinished pkg err := exec (BuildFinished pkg err);
     Reporter.PackageBuildStarted pkg := exec (PackageBuildStarted pkg);
     Reporter.PackageBuildLog pkg isErr buf := exec (PackageBuildLog pkg isErr buf);
     Reporter.PackageBuildFinished pkg err := exec (PackageBuildFinished pkg err) |}.
End WithTerminal.
End ConsoleReporter.

(** ** CompositeReporter *)

Module CompositeReporter.
Section WithState.
Context {W : Type}.

(** [for _, r := range c.Children { call(r) }]. *)
Fixpoint range_Children (call : Reporter.t W -> W -> W)
    (Children : list (Reporter.t W)) (w : W) : W :=
  match Children with
  | [] => w
  | r :: rest => range_Children call rest (call r w)
  end.

Definition BuildStarted (Children : list (Reporter.t W))
    (pkg : Package) (status : StatusMap) : W -> W :=
  range_Children (fun r => Reporter.BuildStarted r pkg status) Children.

Definition BuildFinished (Children : list (Reporter.t W))
    (pkg : Package) (err : option error) : W -> W :=
  range_Children (fun r => Reporter.BuildFinished r pkg err) Children.

Definition PackageBuildStarted (Children : list (Reporter.t W)) (pkg : Package) : W -> W :=
  range_Children (fun r => Reporter.PackageBuildStarted r pkg) Children.

Definition PackageBuildLog (Children : list (Reporter.t W))
    (pkg : Package) (isErr : bool) (buf : string) : W -> W :=
  range_Children (fun r => Reporter.PackageBuildLog r pkg isErr buf) Children.

Definition PackageBuildFinished (Children : list (Reporter.t W))
    (pkg : Package) (err : option error) : W -> W :=
  range_Children (fun r => Reporter.PackageBuildFinished r pkg err) Children.

(** [*CompositeReporter] as a [Reporter]. *)
Definition reporter (Children : list (Reporter.t W)) : Reporter.t W :=
  {| Reporter.BuildStarted := BuildStarted Children;
     Reporter.BuildFinished := BuildFinished Children;
     Reporter.PackageBuildStarted := PackageBuildStarted Children;
     Reporter.PackageBuildLog := PackageBuildLog Children;
     Reporter.PackageBuildFinished := PackageBuildFinished Children |}.
End WithState.
End CompositeReporter.

(** ** Reading the specification's words *)

(** The lines a text is made of: the complete ones, without their line
    feed, and what follows the last line feed. *)
Fixpoint split_lines (s : string) : list string * string :=
  match s with
  | EmptyString => ([], EmptyString)
  | String c s' =>
      let '(lines, rest) := split_lines s' in
      if Ascii.eqb c newline then (EmptyString :: lines, rest)
      else match lines with
           | [] => ([], String c rest)
           | l :: lines' => (String c l :: lines', rest)
           end
  end.

(** The locking discipline of the registry: "lookups take a read lock,
    insertions/removals take a write lock". *)
Inductive MuState : Type := Unlocked | RLocked | Locked.

Fixpoint disciplined (held : MuState) (trace : list RegistryOp) : bool :=
  match trace with
  | [] => true
  | MuLock :: rest => disciplined Locked rest
  | MuRLock :: rest => disciplined RLocked rest
  | MuUnlock :: rest | MuRUnlock :: rest => disciplined Unlocked rest
  | MapLoad _ :: rest =>
      match held with
      | Unlocked => false
      | _ => disciplined held rest
      end
  | MapStore _ :: rest | MapDelete _ :: rest =>
      match held with
      | Locked => disciplined held rest
      | _ => false
      end
  end.

(** Every pointer in the registry was returned by [NewPrefixWriter]. *)
Definition wf_World (σ : World) : Prop :=
  ∀ (nme : string) (out : nat), writer σ !! nme = Some out → out < length (heap σ).

(** The five calls of the interface, with their arguments. *)
Inductive Call : Type :=
  | CallBuildStarted (pkg : Package) (status : StatusMap)
  | CallBuildFinished (pkg : Package) (err : option error)
  | CallPackageBuildStarted (pkg : Package)
  | CallPackageBuildLog (pkg : Package) (isErr : bool) (buf : string)
  | CallPackageBuildFinished (pkg : Package) (err : option error).

Definition deliver {W} (r : Reporter.t W) (c : Call) : W -> W :=
  match c with
  | CallBuildStarted pkg status => Reporter.BuildStarted r pkg status
  | CallBuildFinished pkg err => Reporter.BuildFinished r pkg err
  | CallPackageBuildStarted pkg => Reporter.PackageBuildStarted r pkg
  | CallPackageBuildLog pkg isErr buf => Reporter.PackageBuildLog r pkg isErr buf
  | CallPackageBuildFinished pkg err => Reporter.PackageBuildFinished r pkg err
  end.

(** Which names a call adds to the registry and which it removes. *)
Definition created (c : Call) : gset string :=
  match c with
  | CallPackageBuildStarted pkg | CallPackageBuildLog pkg _ _ => {[ FullName pkg ]}
  | _ => ∅
  end.

Definition destroyed (c : Call) : gset string :=
  match c with
  | CallPackageBuildFinished pkg _ => {[ FullName pkg ]}
  | _ => ∅
  end.

(** "A then B ... then Z": the children receive the call one after the
    other, in list order. *)
Definition in_list_order {W} (Children : list (Reporter.t W)) (c : Call) (w : W) : W :=
  foldl (fun w r => deliver r c w) w Children.

(** A child under observation: it notes which call it received, with
    which arguments, and then behaves as [r]. *)
Definition probe {W} (id : nat) (r : Reporter.t W) : Reporter.t (list (nat * Call) * W) :=
  {| Reporter.BuildStarted pkg status s :=
       (s.1 ++ [(id, CallBuildStarted pkg status)], Reporter.BuildStarted r pkg status s.2);
     Reporter.BuildFinished pkg err s :=
       (s.1 ++ [(id, CallBuildFinished pkg err)], Reporter.BuildFinished r pkg err s.2);
     Reporter.PackageBuildStarted pkg s :=
       (s.1 ++ [(id, CallPackageBuildStarted pkg)], Reporter.PackageBuildStarted r pkg s.2);
     Reporter.PackageBuildLog pkg isErr buf s :=
       (s.1 ++ [(id, CallPackageBuildLog pkg isErr buf)],
        Reporter.PackageBuildLog r pkg isErr buf s.2);
     Reporter.PackageBuildFinished pkg err s :=
       (s.1 ++ [(id, CallPackageBuildFinished pkg err)],
        Reporter.PackageBuildFinished r pkg err s.2) |}.

(** A run of the build engine against one reporter: the calls arrive one
    after the other. *)
Definition deliver_all {W} (r : Reporter.t W) (calls : list Call) (w : W) : W :=
  foldl (fun w c => deliver r c w) w calls.

Definition is_PackageBuildFinished (c : Call) : bool :=
  match c with
  | CallPackageBuildFinished _ _ => true
  | _ => false
  end.

(** The calls that go through a package's sink. *)
Definition package_scoped (c : Call) : bool :=
  match c with
  | CallPackageBuildStarted _ | CallPackageBuildLog _ _ _
  | CallPackageBuildFinished _ _ => true
  | _ => false
  end.

(** What one goroutine holds of [r.mu], a [sync.RWMutex]: the number of
    read locks it has taken and not yet released, and whether it has the
    write lock. *)
Record MuHeld : Type := {
  reading : nat;
  writing : bool
}.

Definition mu_free : MuHeld := {| reading := 0; writing := false |}.

(** One operation of a goroutine that holds [held].  [None] means that the
    goroutine does not get past the operation on its own: [Lock] waits for
    every holder, the caller included, and [RLock] waits for the writer;
    [Unlock] without the write lock and [RUnlock] without a read lock are
    fatal errors of the Go runtime.  The map operations leave the mutex as
    it is. *)
Definition mu_step (held : MuHeld) (op : RegistryOp) : option MuHeld :=
  match op with
  | MuLock =>
      match reading held, writing held with
      | 0, false => Some {| reading := 0; writing := true |}
      | _, _ => None
      end
  | MuUnlock =>
      if writing held then Some {| reading := reading held; writing := false |} else None
  | MuRLock =>
      if writing held then None
      else Some {| reading := S (reading held); writing := false |}
  | MuRUnlock =>
      match reading held with
      | 0 => None
      | S n => Some {| reading := n; writing := writing held |}
      end
  | MapLoad _ | MapStore _ | MapDelete _ => Some held
  end.

(** What the goroutine holds after a sequence of operations, if it gets
    through all of them. *)
Fixpoint held_after (held : MuHeld) (trace : list RegistryOp) : option MuHeld :=
  match trace with
  | [] => Some held
  | op :: rest =>
      match mu_step held op with
      | Some held' => held_after held' rest
      | None => None
      end
  end.

(** The registry entry of a name points to a sink that prefixes with that
    very name. *)
Definition sinks_prefixed (term : Terminal) (σ : World) : Prop :=
  ∀ (nme : string) (out : nat),
    writer σ !! nme = Some out →
    ∃ w, heap σ !! out = Some w ∧ indent w = paint term Gray ("[" +:+ nme +:+ "] ").

(** A text made of whole lines: nothing, or bytes that end in a line feed. *)
Definition whole_lines (s : string) : Prop :=
  s = EmptyString ∨ ∃ t, s = t +:+ LF.

(** The debug entries a call leaves in a given state. *)
Definition early_log_note (c : Call) (σ : World) : list (string * string) :=
  match c with
  | CallPackageBuildLog pkg _ _ =>
      match writer σ !! FullName pkg with
      | Some _ => []
      | None => [(FullName pkg, "saw build log output before the build started")]
      end
  | _ => []
  end.

(** The calls of one package build: started, its log chunks, finished. *)
Definition package_build (pkg : Package) (chunks : list (bool * string))
    (err : option error) : list Call :=
  CallPackageBuildStarted pkg
  :: map (fun chunk => CallPackageBuildLog pkg chunk.1 chunk.2) chunks
  ++ [CallPackageBuildFinished pkg err].

(** The texts of the "build started" line and of the closing summary, as
    the colour library receives them. *)
Definition started_text (pkg : Package) : string :=
  "<fg=yellow>build started</> <gray>(version "
  +:+ ConsoleReporter.version_of pkg +:+ ")</>" +:+ LF.

Definition finished_text (err : option error) : string :=
  match err with
  | None => "<green>package build succeded</>" +:+ LF
  | Some e => "<red>package build failed</>" +:+ LF +:+ "<white>Reason:</> " +:+ e +:+ LF
  end.

(** No two names of the registry point to the same sink. *)
Definition sinks_not_shared (σ : World) : Prop :=
  ∀ (nme1 nme2 : string) (out : nat),
    writer σ !! nme1 = Some out → writer σ !! nme2 = Some out → nme1 = nme2.

(** * Properties *)

(** ** The order on rendered lines *)

Lemma ascii_compare_refl (c : ascii) : Ascii.compare c c = Eq.
Proof. unfold Ascii.compare. apply N.compare_refl. Qed.

Lemma string_compare_refl (s : string) : String.compare s s = Eq.
Proof. induction s as [|c s IH]; simpl; [done|]. by rewrite ascii_compare_refl. Qed.

Lemma string_compare_lt_trans (a b c : string) :
  String.compare a b = Lt → String.compare b c = Lt → String.compare a c = Lt.
Proof.
  revert b c. induction a as [|x a IH]; intros [|y b] [|z c]; simpl; try done.
  unfold Ascii.compare.
  destruct (N.compare_spec (N_of_ascii x) (N_of_ascii y)) as [Hxy|Hxy|Hxy];
    destruct (N.compare_spec (N_of_ascii y) (N_of_ascii z)) as [Hyz|Hyz|Hyz];
    try done; intros Hab Hbc.
  - rewrite Hxy, Hyz, N.compare_refl. by eapply IH.
  - rewrite Hxy. by apply N.compare_lt_iff in Hyz as ->.
  - rewrite <- Hyz. by apply N.compare_lt_iff in Hxy as ->.
  - assert (N_of_ascii x < N_of_ascii z)%N as Hxz by lia.
    by apply N.compare_lt_iff in Hxz as ->.
Qed.

Lemma lines_le_leb (a b : string) : lines_le a b ↔ String.leb a b = true.
Proof.
  unfold lines_le, lines_less, String.ltb, String.leb.
  rewrite (String.compare_antisym a b).
  by destruct (String.compare b a).
Qed.

Lemma lines_le_compare (a b : string) : lines_le a b ↔ String.compare a b ≠ Gt.
Proof.
  rewrite lines_le_leb. unfold String.leb.
  destruct (String.compare a b); naive_solver.
Qed.

#[global] Instance lines_le_refl : Reflexive lines_le.
Proof. intros a. apply lines_le_compare. by rewrite string_compare_refl. Qed.

#[global] Instance lines_le_total : Total lines_le.
Proof. intros a b. rewrite !lines_le_leb. apply String.leb_total. Qed.

#[global] Instance lines_le_antisymm : AntiSymm (=) lines_le.
Proof. intros a b. rewrite !lines_le_leb. apply String.leb_antisym. Qed.

#[global] Instance lines_le_trans : Transitive lines_le.
Proof.
  intros a b c. rewrite !lines_le_compare. intros Hab Hbc Hac.
  destruct (String.compare a b) eqn:Eab; [| |done].
  - apply String.compare_eq_iff in Eab as ->. done.
  - destruct (String.compare b c) eqn:Ebc; [| |done].
    + apply String.compare_eq_iff in Ebc as ->. congruence.
    + pose proof (string_compare_lt_trans _ _ _ Eab Ebc). congruence.
Qed.

(** Whatever algorithm [sort.Slice] runs, its result is this one: a slice
    with the same elements on which no later line is less than an earlier
    one. *)
Lemma sort_Slice_unique (lines sorted : list string) :
  sorted ≡ₚ lines → Sorted lines_le sorted → sorted = sort_Slice lines.
Proof.
  intros Hperm Hsorted. apply (Sorted_unique lines_le); [done| |].
  - apply (Sorted_merge_sort lines_le).
  - unfold sort_Slice. by rewrite merge_sort_Permutation.
Qed.

Lemma sort_Slice_Permutation (lines : list string) : sort_Slice lines ≡ₚ lines.
Proof. apply merge_sort_Permutation. Qed.

Lemma sort_Slice_proper (l1 l2 : list string) : l1 ≡ₚ l2 → sort_Slice l1 = sort_Slice l2.
Proof.
  intros Hperm. apply sort_Slice_unique.
  - by rewrite sort_Slice_Permutation.
  - apply (Sorted_merge_sort lines_le).
Qed.

Lemma sort_Slice_sorted (lines : list string) :
  StronglySorted lines_le (sort_Slice lines).
Proof. apply (StronglySorted_merge_sort lines_le). Qed.

(** ** Strings *)

Lemma app_nil_l_string (s : string) : EmptyString +:+ s = s.
Proof. reflexivity. Qed.

Lemma app_cons_string (c : ascii) (s t : string) : String c s +:+ t = String c (s +:+ t).
Proof. reflexivity. Qed.

Lemma app_nil_r_string (s : string) : s +:+ EmptyString = s.
Proof. induction s as [|c s IH]; [done|]. by rewrite app_cons_string, IH. Qed.

Lemma app_assoc_string (s t u : string) : (s +:+ t) +:+ u = s +:+ t +:+ u.
Proof. induction s as [|c s IH]; [done|]. by rewrite !app_cons_string, IH. Qed.

Ltac string_norm :=
  unfold LF;
  repeat first
    [ rewrite app_assoc_string | rewrite app_nil_r_string
    | rewrite app_nil_l_string | rewrite app_cons_string ].

Lemma strings_Join_app (l1 l2 : list string) :
  strings_Join (l1 ++ l2) = strings_Join l1 +:+ strings_Join l2.
Proof.
  induction l1 as [|l l1 IH]; simpl; [done|]. by rewrite IH, app_assoc_string.
Qed.

(** Cutting a text into lines loses nothing. *)
Lemma split_lines_lossless (s : string) :
  strings_Join (map (fun l => l +:+ LF) (split_lines s).1) +:+ (split_lines s).2 = s.
Proof.
  induction s as [|c s IH]; [done|]. simpl.
  destruct (split_lines s) as [lines rest]. simpl in IH.
  destruct (Ascii.eqb_spec c newline) as [->|Hc]; simpl.
  - rewrite <- IH. by string_norm.
  - destruct lines as [|l lines]; simpl in *.
    + rewrite <- IH. by string_norm.
    + rewrite <- IH. by string_norm.
Qed.

(** ** The sink *)

Lemma PrefixWriter_Write_indent (w : PrefixWriter) (b : string) :
  indent (PrefixWriter_Write w b).2 = indent w.
Proof.
  revert w. induction b as [|c b IH]; intros w; simpl; [done|].
  destruct (Ascii.eqb c newline).
  - specialize (IH {| indent := indent w; buffer := EmptyString |}).
    by destruct (PrefixWriter_Write _ b).
  - by rewrite IH.
Qed.

(** What [Write] does, in terms of lines: the pending bytes complete the
    first line, every complete line goes out behind the prefix, and the
    bytes after the last line feed are kept. *)
Lemma PrefixWriter_Write_lines (w : PrefixWriter) (b : string) :
  PrefixWriter_Write w b =
    match (split_lines b).1 with
    | [] => (EmptyString, {| indent := indent w; buffer := buffer w +:+ (split_lines b).2 |})
    | l :: lines =>
        (indent w +:+ buffer w +:+ l +:+ LF
           +:+ strings_Join (map (fun l => indent w +:+ l +:+ LF) lines),
         {| indent := indent w; buffer := (split_lines b).2 |})
    end.
Proof.
  revert w. induction b as [|c b IH]; intros w.
  { simpl. rewrite app_nil_r_string. by destruct w. }
  simpl. destruct (split_lines b) as [lines rest]. simpl in IH.
  destruct (Ascii.eqb_spec c newline) as [->|Hc]; simpl.
  - rewrite IH. simpl. destruct lines as [|l lines]; simpl; by string_norm.
  - rewrite IH. simpl. destruct lines as [|l lines]; simpl; by string_norm.
Qed.

(** On a sink that holds no pending bytes every line that goes out is
    [indent] followed by one complete line of the input. *)
Lemma PrefixWriter_Write_fresh (prefix b : string) :
  PrefixWriter_Write (NewPrefixWriter_value prefix) b =
    (strings_Join (map (fun l => prefix +:+ l +:+ LF) (split_lines b).1),
     {| indent := prefix; buffer := (split_lines b).2 |}).
Proof.
  rewrite PrefixWriter_Write_lines. simpl.
  destruct (split_lines b).1 as [|l lines]; simpl; by string_norm.
Qed.

(** ** Running the reporter *)

Ltac run :=
  unfold exec, ConsoleReporter.BuildStarted, ConsoleReporter.BuildFinished,
    ConsoleReporter.PackageBuildStarted, ConsoleReporter.PackageBuildLog,
    ConsoleReporter.PackageBuildFinished,
    mbind, M_bind, mret, M_ret, mu_Lock, mu_Unlock, mu_RLock, mu_RUnlock,
    record_op, writer_load, writer_store, writer_delete, NewPrefixWriter,
    ConsoleReporter.color_Printf, ConsoleReporter.color_Println,
    ConsoleReporter.color_Sprintf, ConsoleReporter.color_Render,
    Stdout_Write, log_Debug; simpl.

(** Writing through a sink that was just put on the heap. *)
Lemma out_Write_new (prefix buf : string) (σ : World) (h : list PrefixWriter) :
  heap σ = h ++ [NewPrefixWriter_value prefix] →
  out_Write (length h) buf σ =
    (tt, {| stdout := stdout σ +:+ (PrefixWriter_Write (NewPrefixWriter_value prefix) buf).1;
            heap := h ++ [(PrefixWriter_Write (NewPrefixWriter_value prefix) buf).2];
            writer := writer σ; ops := ops σ; debuglog := debuglog σ |}).
Proof.
  intros Hheap. unfold out_Write. rewrite Hheap.
  rewrite list_lookup_middle by done.
  do 2 f_equal. rewrite insert_app_r_alt by done.
  by rewrite Nat.sub_diag.
Qed.

Lemma out_Write_writer (out : nat) (buf : string) (σ : World) :
  writer (out_Write out buf σ).2 = writer σ.
Proof. unfold out_Write. by destruct (heap σ !! out). Qed.

Lemma out_Write_ops (out : nat) (buf : string) (σ : World) :
  ops (out_Write out buf σ).2 = ops σ.
Proof. unfold out_Write. by destruct (heap σ !! out). Qed.

Lemma out_Write_debuglog (out : nat) (buf : string) (σ : World) :
  debuglog (out_Write out buf σ).2 = debuglog σ.
Proof. unfold out_Write. by destruct (heap σ !! out). Qed.

Lemma out_Write_heap_length (out : nat) (buf : string) (σ : World) :
  length (heap (out_Write out buf σ).2) = length (heap σ).
Proof. unfold out_Write. destruct (heap σ !! out); simpl; [|done]. by rewrite length_insert. Qed.

(** The registry after each of the three package-scoped calls. *)
Lemma PackageBuildStarted_writer term pkg σ :
  writer (exec (ConsoleReporter.PackageBuildStarted term pkg) σ)
  = <[FullName pkg := length (heap σ)]> (writer σ).
Proof. run. by rewrite out_Write_writer. Qed.

Lemma PackageBuildLog_writer term pkg isErr buf σ :
  writer (exec (ConsoleReporter.PackageBuildLog term pkg isErr buf) σ)
  = match writer σ !! FullName pkg with
    | Some _ => writer σ
    | None => <[FullName pkg := length (heap σ)]> (writer σ)
    end.
Proof. run. destruct (writer σ !! FullName pkg); simpl; by rewrite out_Write_writer. Qed.

Lemma PackageBuildFinished_writer term pkg err σ :
  writer (exec (ConsoleReporter.PackageBuildFinished term pkg err) σ)
  = delete (FullName pkg) (writer σ).
Proof. run. destruct (writer σ !! FullName pkg); simpl; by rewrite out_Write_writer. Qed.

Lemma PackageBuildFinished_heap_length term pkg err σ :
  length (heap (exec (ConsoleReporter.PackageBuildFinished term pkg err) σ))
  = match writer σ !! FullName pkg with
    | Some _ => length (heap σ)
    | None => S (length (heap σ))
    end.
Proof.
  run. destruct (writer σ !! FullName pkg); simpl; rewrite out_Write_heap_length; simpl.
  - done.
  - rewrite length_app. simpl. lia.
Qed.

(** The mutex and map operations of each of the three calls. *)
Lemma PackageBuildStarted_ops term pkg σ :
  ops (exec (ConsoleReporter.PackageBuildStarted term pkg) σ)
  = ops σ ++ [MuLock; MapStore (FullName pkg); MuUnlock].
Proof. run. rewrite out_Write_ops. simpl. by rewrite <- !app_assoc. Qed.

Lemma PackageBuildLog_ops term pkg isErr buf σ :
  ops (exec (ConsoleReporter.PackageBuildLog term pkg isErr buf) σ)
  = ops σ ++ [MuRLock; MapLoad (FullName pkg); MuRUnlock]
      ++ match writer σ !! FullName pkg with
         | Some _ => []
         | None => [MuLock; MapStore (FullName pkg); MuUnlock]
         end.
Proof.
  run. destruct (writer σ !! FullName pkg); simpl; rewrite out_Write_ops; simpl;
    by rewrite <- !app_assoc.
Qed.

Lemma PackageBuildFinished_ops term pkg err σ :
  ops (exec (ConsoleReporter.PackageBuildFinished term pkg err) σ)
  = ops σ ++ [MuRLock; MapLoad (FullName pkg); MuRUnlock; MapDelete (FullName pkg)].
Proof.
  run. destruct (writer σ !! FullName pkg); simpl; rewrite out_Write_ops; simpl;
    by rewrite <- !app_assoc.
Qed.

(** The registry only ever holds pointers to allocated sinks: true of a
    new reporter, and kept by each of the five calls. *)
Lemma wf_World_new : wf_World NewConsoleReporter.
Proof. intros nme out. simpl. by rewrite lookup_empty. Qed.

Lemma deliver_console term (c : Call) (σ : World) :
  deliver (ConsoleReporter.reporter term) c σ =
    match c with
    | CallBuildStarted pkg status => exec (ConsoleReporter.BuildStarted term pkg status) σ
    | CallBuildFinished pkg err => exec (ConsoleReporter.BuildFinished term pkg err) σ
    | CallPackageBuildStarted pkg => exec (ConsoleReporter.PackageBuildStarted term pkg) σ
    | CallPackageBuildLog pkg isErr buf =>
        exec (ConsoleReporter.PackageBuildLog term pkg isErr buf) σ
    | CallPackageBuildFinished pkg err =>
        exec (ConsoleReporter.PackageBuildFinished term pkg err) σ
    end.
Proof. by destruct c. Qed.

Lemma wf_World_deliver term (c : Call) (σ : World) :
  wf_World σ → wf_World (deliver (ConsoleReporter.reporter term) c σ).
Proof.
  intros Hwf nme out. rewrite deliver_console.
  destruct c as [pkg status|pkg err|pkg|pkg isErr buf|pkg err].
  - apply Hwf.
  - destruct err; apply Hwf.
  - rewrite PackageBuildStarted_writer. run. rewrite out_Write_heap_length. simpl.
    rewrite length_app. simpl. intros [[_ <-]|[_ H]]%lookup_insert_Some; [lia|].
    apply Hwf in H. lia.
  - rewrite PackageBuildLog_writer. run.
    destruct (writer σ !! FullName pkg) eqn:E; simpl; rewrite out_Write_heap_length; simpl.
    + apply Hwf.
    + rewrite length_app. simpl. intros [[_ <-]|[_ H]]%lookup_insert_Some; [lia|].
      apply Hwf in H. lia.
  - rewrite PackageBuildFinished_writer, PackageBuildFinished_heap_length.
    intros [_ H]%lookup_delete_Some. apply Hwf in H.
    destruct (writer σ !! FullName pkg); lia.
Qed.

(** ** PackageBuildLog *)

(** What an early [PackageBuildLog] does on its own.  When it finds no
    sink for the package, it runs to
    completion (the function is total) and: a sink with the gray
    "[<full name>] " prefix is created and stored in the registry under the
    package's full name; the complete lines of [buf] reach standard output
    unchanged, each behind that prefix; the bytes after the last line feed
    are held by the new sink; lines and held bytes together are exactly
    [buf].  The early log is noted at debug level only. *)
Theorem PackageBuildLog_before_started term pkg isErr buf σ :
  writer σ !! FullName pkg = None →
  let σ' := exec (ConsoleReporter.PackageBuildLog term pkg isErr buf) σ in
  let prefix := ConsoleReporter.getRunPrefix term pkg in
  prefix = paint term Gray ("[" +:+ FullName pkg +:+ "] ")
  ∧ writer σ' = <[FullName pkg := length (heap σ)]> (writer σ)
  ∧ heap σ' = heap σ ++ [{| indent := prefix; buffer := (split_lines buf).2 |}]
  ∧ stdout σ' = stdout σ +:+ strings_Join (map (fun l => prefix +:+ l +:+ LF) (split_lines buf).1)
  ∧ strings_Join (map (fun l => l +:+ LF) (split_lines buf).1) +:+ (split_lines buf).2 = buf
  ∧ debuglog σ'
    = debuglog σ ++ [(FullName pkg, "saw build log output before the build started")].
Proof.
  intros Habsent σ' prefix. subst σ' prefix.
  split; [done|].
  split; [by rewrite PackageBuildLog_writer, Habsent|].
  split; [|split; [|split; [apply split_lines_lossless|]]].
  - run. rewrite Habsent. simpl.
    erewrite out_Write_new by done. simpl. by rewrite PrefixWriter_Write_fresh.
  - run. rewrite Habsent. simpl.
    erewrite out_Write_new by done. simpl. by rewrite PrefixWriter_Write_fresh.
  - run. rewrite Habsent. simpl. by rewrite out_Write_debuglog.
Qed.

Lemma PackageBuildLog_before_started_witness :
  let pkg := {| FullName := "core:app"; Version := VersionOk "7" |} in
  let σ' := exec (ConsoleReporter.PackageBuildLog plain pkg false ("ok" +:+ LF +:+ "more"))
              NewConsoleReporter in
  writer σ' !! "core:app" = Some 0
  ∧ heap σ' = [{| indent := "[core:app] "; buffer := "more" |}]
  ∧ stdout σ' = "[core:app] ok" +:+ LF.
Proof.
  intros pkg σ'.
  destruct (PackageBuildLog_before_started plain pkg false ("ok" +:+ LF +:+ "more")
              NewConsoleReporter) as (_ & Hw & Hh & Hs & _); [reflexivity|].
  fold σ' in Hw, Hh, Hs. rewrite Hw, Hh, Hs. repeat split.
Defined.

(** Bytes logged early that do not end a line wait in the sink made for
    them; [PackageBuildStarted] then puts a new sink in its place, and the
    waiting bytes never reach standard output. *)
Lemma early_partial_line_replaced :
  let pkg := {| FullName := "core:app"; Version := VersionOk "7" |} in
  stdout (exec (ConsoleReporter.PackageBuildFinished plain pkg None)
            (exec (ConsoleReporter.PackageBuildStarted plain pkg)
               (exec (ConsoleReporter.PackageBuildLog plain pkg false "half")
                  NewConsoleReporter)))
  = "[core:app] build started (version 7)" +:+ LF
    +:+ "[core:app] package build succeded" +:+ LF.
Proof. reflexivity. Qed.

(** C9.  [PackageBuildLog] ignores [isErr]: whatever the package, the
    bytes and the state it starts from, the run for the error stream and
    the run for the output stream end in the same state (registry, sinks,
    standard output, debug log and mutex operations alike). *)
Theorem PackageBuildLog_isErr_irrelevant term pkg buf σ :
  exec (ConsoleReporter.PackageBuildLog term pkg true buf) σ
  = exec (ConsoleReporter.PackageBuildLog term pkg false buf) σ
  ∧ stdout (exec (ConsoleReporter.PackageBuildLog term pkg true buf) σ)
    = stdout (exec (ConsoleReporter.PackageBuildLog term pkg false buf) σ)
  ∧ writer (exec (ConsoleReporter.PackageBuildLog term pkg true buf) σ)
    = writer (exec (ConsoleReporter.PackageBuildLog term pkg false buf) σ).
Proof. done. Qed.

(** ** PackageBuildFinished *)

Lemma registry_lifecycle term (c : Call) (σ : World) :
  dom (writer (deliver (ConsoleReporter.reporter term) c σ))
  = (dom (writer σ) ∪ created c) ∖ destroyed c.
Proof.
  rewrite deliver_console.
  destruct c as [pkg status|pkg err|pkg|pkg isErr buf|pkg err]; unfold created, destroyed.
  - simpl. set_solver.
  - destruct err; simpl; set_solver.
  - rewrite PackageBuildStarted_writer, dom_insert_L. set_solver.
  - rewrite PackageBuildLog_writer.
    destruct (writer σ !! FullName pkg) eqn:E.
    + apply (elem_of_dom_2 (writer σ)) in E. set_solver.
    + rewrite dom_insert_L. set_solver.
  - rewrite PackageBuildFinished_writer, dom_delete_L. set_solver.
Qed.

(** C10.  [PackageBuildFinished] changes the registry by deleting the
    package's own name and in no other way: every other name keeps its
    entry, no name gains one, and when the package had no sink the sink
    made for the closing line is allocated but appears nowhere in the
    registry. *)
Theorem PackageBuildFinished_frame term pkg err σ :
  wf_World σ →
  let σ' := exec (ConsoleReporter.PackageBuildFinished term pkg err) σ in
  writer σ' = delete (FullName pkg) (writer σ)
  ∧ (∀ nme, nme ≠ FullName pkg → writer σ' !! nme = writer σ !! nme)
  ∧ dom (writer σ') ⊆ dom (writer σ)
  ∧ (writer σ !! FullName pkg = None →
       writer σ' = writer σ
       ∧ length (heap σ') = S (length (heap σ))
       ∧ ∀ nme, writer σ' !! nme ≠ Some (length (heap σ))).
Proof.
  intros Hwf σ'. subst σ'.
  rewrite PackageBuildFinished_writer, PackageBuildFinished_heap_length.
  split; [done|]. split; [|split].
  - intros nme Hne. by rewrite lookup_delete_ne.
  - rewrite dom_delete_L. set_solver.
  - intros Habsent. rewrite Habsent. split; [by apply delete_id|].
    split; [done|]. intros nme [_ H]%lookup_delete_Some.
    apply Hwf in H. lia.
Qed.

Lemma PackageBuildFinished_frame_witness :
  let pkg := {| FullName := "core:app"; Version := VersionOk "7" |} in
  let lib := {| FullName := "core:lib"; Version := VersionOk "3" |} in
  let σ := exec (ConsoleReporter.PackageBuildStarted plain lib) NewConsoleReporter in
  let σ' := exec (ConsoleReporter.PackageBuildFinished plain pkg None) σ in
  writer σ' !! "core:lib" = Some 0 ∧ writer σ' = writer σ ∧ length (heap σ') = 2.
Proof.
  intros pkg lib σ σ'.
  assert (wf_World σ) as Hwf.
  { apply (wf_World_deliver plain (CallPackageBuildStarted lib)), wf_World_new. }
  destruct (PackageBuildFinished_frame plain pkg None σ Hwf) as (_ & Hother & _ & Hnone).
  destruct Hnone as (Hsame & Hlen & _); [reflexivity|].
  split; [|split].
  - fold σ' in Hother. rewrite (Hother "core:lib") by discriminate. reflexivity.
  - exact Hsame.
  - exact Hlen.
Defined.

(** C5.  Once [PackageBuildFinished] has returned the package's name is
    absent from the registry.  A later [PackageBuildLog] or
    [PackageBuildStarted] for a package of that full name stores a pointer
    to a newly allocated sink (one past every sink that existed), which has
    seen nothing but the bytes of that very call, and leaves the older
    sinks as they were.  Over all five calls, a name leaves the registry
    exactly when the call is [PackageBuildFinished] for that name, and
    enters it only through [PackageBuildStarted] or [PackageBuildLog]. *)
Theorem PackageBuildFinished_then_fresh term pkg pkg' err isErr buf σ :
  FullName pkg' = FullName pkg →
  let σ1 := exec (ConsoleReporter.PackageBuildFinished term pkg err) σ in
  let σlog := exec (ConsoleReporter.PackageBuildLog term pkg' isErr buf) σ1 in
  let σstarted := exec (ConsoleReporter.PackageBuildStarted term pkg') σ1 in
  let sink := NewPrefixWriter_value (ConsoleReporter.getRunPrefix term pkg') in
  writer σ1 !! FullName pkg = None
  ∧ writer σlog !! FullName pkg = Some (length (heap σ1))
  ∧ heap σlog = heap σ1 ++ [(PrefixWriter_Write sink buf).2]
  ∧ writer σstarted !! FullName pkg = Some (length (heap σ1))
  ∧ heap σstarted
    = heap σ1 ++ [(PrefixWriter_Write sink
                     (Render term
                        ("<fg=yellow>build started</> <gray>(version "
                         +:+ ConsoleReporter.version_of pkg' +:+ ")</>" +:+ LF))).2]
  ∧ ∀ (c : Call) (σ0 : World),
      dom (writer (deliver (ConsoleReporter.reporter term) c σ0))
      = (dom (writer σ0) ∪ created c) ∖ destroyed c.
Proof.
  intros Hname σ1 σlog σstarted sink.
  assert (writer σ1 !! FullName pkg' = None) as Habsent.
  { subst σ1. rewrite Hname, PackageBuildFinished_writer. apply lookup_delete_eq. }
  clearbody σ1.
  split; [by rewrite <- Hname|].
  split; [|split; [|split; [|split]]].
  - subst σlog. rewrite PackageBuildLog_writer, Habsent, <- Hname. apply lookup_insert_eq.
  - subst σlog. run. rewrite Habsent. simpl. by erewrite out_Write_new by done.
  - subst σstarted. rewrite PackageBuildStarted_writer, <- Hname. apply lookup_insert_eq.
  - subst σstarted. run. by erewrite out_Write_new by done.
  - intros c σ0. apply registry_lifecycle.
Qed.

Lemma PackageBuildFinished_then_fresh_witness :
  let pkg := {| FullName := "core:app"; Version := VersionOk "7" |} in
  let σ := exec (ConsoleReporter.PackageBuildLog plain pkg false "half a line")
             NewConsoleReporter in
  let σ1 := exec (ConsoleReporter.PackageBuildFinished plain pkg None) σ in
  let σlog := exec (ConsoleReporter.PackageBuildLog plain pkg true "again") σ1 in
  writer σ !! "core:app" = Some 0
  ∧ writer σ1 !! "core:app" = None
  ∧ writer σlog !! "core:app" = Some 1
  ∧ heap σlog !! 1 = Some {| indent := "[core:app] "; buffer := "again" |}.
Proof.
  intros pkg σ σ1 σlog.
  destruct (PackageBuildFinished_then_fresh plain pkg pkg None true "again" σ eq_refl)
    as (H1 & H2 & H3 & _).
  split; [reflexivity|]. split; [exact H1|]. split; [exact H2|].
  fold σ1 σlog in H3. rewrite H3. reflexivity.
Defined.

(** ** The locking discipline *)

Lemma PackageBuildStarted_disciplined term pkg σ :
  ∃ trace, ops (exec (ConsoleReporter.PackageBuildStarted term pkg) σ) = ops σ ++ trace
           ∧ disciplined Unlocked trace = true.
Proof. eexists. split; [apply PackageBuildStarted_ops|done]. Qed.

Lemma PackageBuildLog_disciplined term pkg isErr buf σ :
  ∃ trace, ops (exec (ConsoleReporter.PackageBuildLog term pkg isErr buf) σ) = ops σ ++ trace
           ∧ disciplined Unlocked trace = true.
Proof.
  eexists. split; [apply PackageBuildLog_ops|].
  by destruct (writer σ !! FullName pkg).
Qed.

(** C1.  The specification asks that every removal from the registry
    take the exclusive lock.  The code does not: for every package, error
    and state, [PackageBuildFinished] looks the sink up under the read
    lock, releases it, and then deletes the entry while holding no lock at
    all, so its sequence of operations breaks the discipline that
    [PackageBuildStarted] and [PackageBuildLog] keep. *)
Theorem PackageBuildFinished_deletes_unlocked term pkg err σ :
  let nme := FullName pkg in
  ops (exec (ConsoleReporter.PackageBuildFinished term pkg err) σ)
  = ops σ ++ [MuRLock; MapLoad nme; MuRUnlock; MapDelete nme]
  ∧ disciplined Unlocked [MuRLock; MapLoad nme; MuRUnlock] = true
  ∧ disciplined Unlocked [MuRLock; MapLoad nme; MuRUnlock; MapDelete nme] = false.
Proof. intros nme. split; [apply PackageBuildFinished_ops|done]. Qed.

(** ** Summaries *)

(** C8.  The specification gives the success summaries as "build
    succeeded" and "package build succeeded".  The code prints neither:
    the texts handed to the colour library spell the word "succeded", and
    [BuildFinished] puts an empty line before its summary.  On a terminal
    without colour the two summaries come out as shown. *)
Theorem summary_text_misspelt term pkg σ :
  stdout (exec (ConsoleReporter.BuildFinished term pkg None) σ)
  = stdout σ +:+ Render term (LF +:+ "<green>build succeded</>") +:+ LF
  ∧ stdout (exec (ConsoleReporter.PackageBuildFinished term pkg None) NewConsoleReporter)
    = (PrefixWriter_Write (NewPrefixWriter_value (ConsoleReporter.getRunPrefix term pkg))
         (Render term ("<green>package build succeded</>" +:+ LF))).1
  ∧ strings_Contains (LF +:+ "<green>build succeded</>") "succeeded" = false
  ∧ strings_Contains ("<green>package build succeded</>" +:+ LF) "succeeded" = false
  ∧ stdout (exec (ConsoleReporter.BuildFinished plain pkg None) NewConsoleReporter)
    = LF +:+ "build succeded" +:+ LF
  ∧ stdout (exec (ConsoleReporter.PackageBuildFinished plain
                    {| FullName := "core:app"; Version := VersionOk "7" |} None)
              NewConsoleReporter)
    = "[core:app] package build succeded" +:+ LF.
Proof.
  split; [done|]. split; [|done].
  run. erewrite (out_Write_new _ _ _ []) by done. done.
Qed.

(** The failure summaries of the two calls. *)
Lemma failure_summaries term pkg (e : error) σ :
  stdout (exec (ConsoleReporter.BuildFinished term pkg (Some e)) σ)
  = stdout σ +:+ Render term ("<red>build failed</>" +:+ LF +:+ "<white>Reason:</> "
                              +:+ e +:+ LF)
  ∧ stdout (exec (ConsoleReporter.PackageBuildFinished term pkg (Some e)) NewConsoleReporter)
    = (PrefixWriter_Write (NewPrefixWriter_value (ConsoleReporter.getRunPrefix term pkg))
         (Render term ("<red>package build failed</>" +:+ LF +:+ "<white>Reason:</> "
                       +:+ e +:+ LF))).1.
Proof.
  split; [done|]. run. erewrite (out_Write_new _ _ _ []) by done. done.
Qed.

(** ** Versions *)

(** C7.  When [Version()] fails for a package, its line in the status
    table of [BuildStarted] (whatever its status, in whatever map) and the
    "build started" line of [PackageBuildStarted] carry the literal
    "unknown" where the version would stand; both calls run to completion
    and return nothing, so no error reaches the caller. *)
Theorem version_failure_placeholder term pkg e :
  Version pkg = VersionErr e →
  (∀ status,
     ConsoleReporter.status_line term (pkg, status)
     = match status with
       | PackageBuilt => paint term Green ("📦" +:+ TAB +:+ "cached")
       | PackagePending => paint term Yellow ("🔧" +:+ TAB +:+ "build")
       end +:+ TAB +:+ FullName pkg +:+ TAB
       +:+ paint term Gray "(version unknown)" +:+ LF)
  ∧ (∀ root status statusmap σ,
       (pkg, status) ∈ statusmap →
       ConsoleReporter.status_line term (pkg, status)
         ∈ ConsoleReporter.BuildStarted_lines term statusmap
       ∧ stdout (exec (ConsoleReporter.BuildStarted term root statusmap) σ)
         = stdout σ +:+ tabwriter term
             (strings_Join (ConsoleReporter.BuildStarted_lines term statusmap) +:+ LF))
  ∧ ∀ σ,
      stdout (exec (ConsoleReporter.PackageBuildStarted term pkg) σ)
      = stdout σ +:+ (PrefixWriter_Write
                        (NewPrefixWriter_value (ConsoleReporter.getRunPrefix term pkg))
                        (Render term ("<fg=yellow>build started</> <gray>(version unknown)</>"
                                      +:+ LF))).1.
Proof.
  intros Hfail.
  split; [|split].
  - intros status. unfold ConsoleReporter.status_line, ConsoleReporter.version_of.
    rewrite Hfail. by destruct status.
  - intros root status statusmap σ Hin. split; [|done].
    unfold ConsoleReporter.BuildStarted_lines. rewrite sort_Slice_Permutation.
    apply list_elem_of_fmap. by exists (pkg, status).
  - intros σ. run. erewrite out_Write_new by done. simpl.
    unfold ConsoleReporter.version_of. by rewrite Hfail.
Qed.

Lemma version_failure_placeholder_witness :
  let pkg := {| FullName := "core:app"; Version := VersionErr "no git" |} in
  ConsoleReporter.status_line plain (pkg, PackagePending)
  = "🔧" +:+ TAB +:+ "build" +:+ TAB +:+ "core:app" +:+ TAB +:+ "(version unknown)" +:+ LF
  ∧ stdout (exec (ConsoleReporter.PackageBuildStarted plain pkg) NewConsoleReporter)
    = "[core:app] build started (version unknown)" +:+ LF.
Proof.
  intros pkg.
  destruct (version_failure_placeholder plain pkg "no git" eq_refl) as (Hline & _ & Hout).
  split.
  - rewrite Hline. reflexivity.
  - rewrite Hout. reflexivity.
Defined.

(** ** The status table *)

Lemma StronglySorted_lookup {A} (R : relation A) (l : list A) :
  StronglySorted R l →
  ∀ i j a b, i < j → l !! i = Some a → l !! j = Some b → R a b.
Proof.
  induction 1 as [|x l Hsorted IH Hall]; intros i j a b Hij Hi Hj.
  { by rewrite lookup_nil in Hi. }
  destruct j as [|j]; [lia|]. simpl in Hj.
  destruct i as [|i]; simpl in Hi.
  - injection Hi as <-. rewrite Forall_forall in Hall.
    apply Hall. by apply (list_elem_of_lookup_2 l j).
  - apply (IH i j); [lia|done..].
Qed.

(** C3.  For every status map, [BuildStarted] hands the tabwriter, in one
    write, the lines of the sorted slice followed by a line feed.  That
    slice holds the line of each entry of the map exactly once (it is a
    rearrangement of the lines computed in the loop, as many as there are
    keys); a line starts with the "cached" tag for [PackageBuilt] and with
    the "build" tag for [PackagePending]; no line is less than a line
    before it in Go's string order; and the order in which [range] visits
    the map changes neither the slice nor the output. *)
Theorem BuildStarted_sorted_table term root status σ :
  let lines := ConsoleReporter.BuildStarted_lines term status in
  stdout (exec (ConsoleReporter.BuildStarted term root status) σ)
  = stdout σ +:+ tabwriter term (strings_Join lines +:+ LF)
  ∧ lines ≡ₚ map (ConsoleReporter.status_line term) status
  ∧ length lines = length status
  ∧ (∀ pkg,
       ConsoleReporter.status_line term (pkg, PackageBuilt)
       = paint term Green ("📦" +:+ TAB +:+ "cached") +:+ TAB +:+ FullName pkg +:+ TAB
         +:+ paint term Gray ("(version " +:+ ConsoleReporter.version_of pkg +:+ ")") +:+ LF)
  ∧ (∀ pkg,
       ConsoleReporter.status_line term (pkg, PackagePending)
       = paint term Yellow ("🔧" +:+ TAB +:+ "build") +:+ TAB +:+ FullName pkg +:+ TAB
         +:+ paint term Gray ("(version " +:+ ConsoleReporter.version_of pkg +:+ ")") +:+ LF)
  ∧ (∀ i j a b, i < j → lines !! i = Some a → lines !! j = Some b → lines_less b a = false)
  ∧ (∀ status', status' ≡ₚ status →
       ConsoleReporter.BuildStarted_lines term status' = lines
       ∧ exec (ConsoleReporter.BuildStarted term root status') σ
         = exec (ConsoleReporter.BuildStarted term root status) σ).
Proof.
  intros lines. subst lines. unfold ConsoleReporter.BuildStarted_lines.
  split; [done|]. split; [apply sort_Slice_Permutation|].
  split; [by rewrite sort_Slice_Permutation, length_map|].
  split; [done|]. split; [done|]. split.
  - intros i j a b. apply (StronglySorted_lookup lines_le), sort_Slice_sorted.
  - intros status' Hperm.
    assert (sort_Slice (map (ConsoleReporter.status_line term) status')
            = sort_Slice (map (ConsoleReporter.status_line term) status)) as Hsame.
    { apply sort_Slice_proper. by rewrite Hperm. }
    split; [done|].
    unfold exec, ConsoleReporter.BuildStarted, ConsoleReporter.BuildStarted_lines.
    by rewrite Hsame.
Qed.

Lemma BuildStarted_sorted_table_witness :
  let x := {| FullName := "core:x"; Version := VersionOk "1" |} in
  let y := {| FullName := "core:y"; Version := VersionErr "no git" |} in
  let cached := "📦" +:+ TAB +:+ "cached" +:+ TAB +:+ "core:x" +:+ TAB +:+ "(version 1)" +:+ LF in
  let build :=
    "🔧" +:+ TAB +:+ "build" +:+ TAB +:+ "core:y" +:+ TAB +:+ "(version unknown)" +:+ LF in
  ConsoleReporter.BuildStarted_lines plain [(y, PackagePending); (x, PackageBuilt)]
  = [cached; build]
  ∧ lines_less build cached = false
  ∧ stdout (exec (ConsoleReporter.BuildStarted plain x [(y, PackagePending); (x, PackageBuilt)])
              NewConsoleReporter)
    = cached +:+ build +:+ LF.
Proof.
  intros x y cached build.
  destruct (BuildStarted_sorted_table plain x [(x, PackageBuilt); (y, PackagePending)]
              NewConsoleReporter) as (_ & _ & _ & _ & _ & Hsorted & Hperm).
  destruct (Hperm [(y, PackagePending); (x, PackageBuilt)]) as [Hlines Hexec].
  { apply Permutation_swap. }
  split; [exact Hlines|]. split.
  - apply (Hsorted 0 1); [lia|reflexivity|reflexivity].
  - rewrite Hexec. reflexivity.
Defined.

(** ** CompositeReporter *)

Lemma range_Children_foldl {W} (call : Reporter.t W → W → W)
    (Children : list (Reporter.t W)) (w : W) :
  CompositeReporter.range_Children call Children w = foldl (fun w r => call r w) w Children.
Proof. revert w. induction Children as [|r rest IH]; intros w; simpl; [done|]. apply IH. Qed.

Lemma deliver_composite {W} (Children : list (Reporter.t W)) (c : Call) (w : W) :
  deliver (CompositeReporter.reporter Children) c w = in_list_order Children c w.
Proof.
  unfold in_list_order.
  destruct c; simpl;
    unfold CompositeReporter.BuildStarted, CompositeReporter.BuildFinished,
      CompositeReporter.PackageBuildStarted, CompositeReporter.PackageBuildLog,
      CompositeReporter.PackageBuildFinished;
    by rewrite range_Children_foldl.
Qed.

Lemma deliver_probe {W} (id : nat) (r : Reporter.t W) (c : Call) (s : list (nat * Call) * W) :
  deliver (probe id r) c s = (s.1 ++ [(id, c)], deliver r c s.2).
Proof. by destruct c. Qed.

Lemma probes_in_list_order {W} (Children : list (Reporter.t W)) (c : Call)
    (first : nat) (seen : list (nat * Call)) (w : W) :
  in_list_order (imap (fun i => probe (first + i)) Children) c (seen, w)
  = (seen ++ imap (fun i _ => (first + i, c)) Children, in_list_order Children c w).
Proof.
  revert first seen w. induction Children as [|r rest IH]; intros first seen w.
  { simpl. by rewrite app_nil_r. }
  unfold in_list_order in *. simpl. rewrite deliver_probe. simpl.
  rewrite !Nat.add_0_r.
  rewrite (imap_ext (_ ∘ S) (fun i => probe (S first + i)) rest).
  2: { intros i x _. simpl. f_equal. lia. }
  rewrite IH, <- app_assoc. simpl. do 3 f_equal.
  apply imap_ext. intros i x _. simpl. f_equal. lia.
Qed.

(** C6.  For each of the five calls, a [CompositeReporter] over any list
    of children does exactly what calling the children one after the other
    in list order does.  With every child under observation, the call to
    the composite adds to the record one entry per child, in list order,
    each with the call and the arguments the composite itself received,
    and nothing else; the state it returns is the one the children's own
    effects produce, applied in that order. *)
Theorem CompositeReporter_forwards_in_order {W} (Children : list (Reporter.t W))
    (c : Call) (seen : list (nat * Call)) (w : W) :
  deliver (CompositeReporter.reporter Children) c w = in_list_order Children c w
  ∧ deliver (CompositeReporter.reporter (imap probe Children)) c (seen, w)
    = (seen ++ imap (fun i _ => (i, c)) Children, in_list_order Children c w)
  ∧ deliver (CompositeReporter.reporter []) c w = w.
Proof.
  split; [apply deliver_composite|]. split; [|by destruct c].
  rewrite deliver_composite. apply (probes_in_list_order Children c 0).
Qed.

(** * Further properties of the reporter *)

(** ** Sinks, byte by byte *)

Lemma PrefixWriter_Write_cons (w : PrefixWriter) (c : ascii) (b : string) :
  PrefixWriter_Write w (String c b) =
    if Ascii.eqb c newline then
      (indent w +:+ buffer w +:+ LF
         +:+ (PrefixWriter_Write {| indent := indent w; buffer := EmptyString |} b).1,
       (PrefixWriter_Write {| indent := indent w; buffer := EmptyString |} b).2)
    else
      PrefixWriter_Write {| indent := indent w; buffer := buffer w +:+ String c EmptyString |} b.
Proof.
  simpl. destruct (Ascii.eqb c newline); [|done].
  by destruct (PrefixWriter_Write _ b).
Qed.

(** Two writes in a row are one write of the bytes put together. *)
Lemma PrefixWriter_Write_app (w : PrefixWriter) (a b : string) :
  PrefixWriter_Write w (a +:+ b) =
    ((PrefixWriter_Write w a).1 +:+ (PrefixWriter_Write (PrefixWriter_Write w a).2 b).1,
     (PrefixWriter_Write (PrefixWriter_Write w a).2 b).2).
Proof.
  revert w. induction a as [|c a IH]; intros w.
  { rewrite app_nil_l_string. simpl. by destruct (PrefixWriter_Write w b). }
  rewrite app_cons_string, !PrefixWriter_Write_cons.
  destruct (Ascii.eqb c newline); simpl.
  - rewrite IH. simpl. by string_norm.
  - apply IH.
Qed.

Lemma PrefixWriter_Write_whole_lines (w : PrefixWriter) (b : string) :
  whole_lines (PrefixWriter_Write w b).1.
Proof.
  rewrite PrefixWriter_Write_lines.
  destruct (split_lines b).1 as [|l lines]; simpl; [by left|]. right.
  induction lines as [|l' lines IH] using rev_ind.
  - exists (indent w +:+ buffer w +:+ l). simpl. by string_norm.
  - exists (indent w +:+ buffer w +:+ l +:+ LF
            +:+ strings_Join (map (fun l => indent w +:+ l +:+ LF) lines)
            +:+ indent w +:+ l').
    rewrite map_app, strings_Join_app. simpl. by string_norm.
Qed.

(** Bytes that end in a line feed leave nothing pending. *)
Lemma PrefixWriter_Write_line_end (w : PrefixWriter) (t : string) :
  buffer (PrefixWriter_Write w (t +:+ LF)).2 = EmptyString.
Proof.
  rewrite PrefixWriter_Write_app. unfold LF.
  by rewrite (PrefixWriter_Write_cons _ "010"%char EmptyString).
Qed.

(** ** Each call, as a change of state *)

Lemma out_Write_present (out : nat) (buf : string) (σ : World) (w : PrefixWriter) :
  heap σ !! out = Some w →
  out_Write out buf σ =
    (tt, {| stdout := stdout σ +:+ (PrefixWriter_Write w buf).1;
            heap := <[out := (PrefixWriter_Write w buf).2]> (heap σ);
            writer := writer σ; ops := ops σ; debuglog := debuglog σ |}).
Proof. intros Hw. unfold out_Write. by rewrite Hw. Qed.

Lemma PackageBuildStarted_run term pkg σ :
  let sink := NewPrefixWriter_value (ConsoleReporter.getRunPrefix term pkg) in
  let text := Render term ("<fg=yellow>build started</> <gray>(version "
                           +:+ ConsoleReporter.version_of pkg +:+ ")</>" +:+ LF) in
  exec (ConsoleReporter.PackageBuildStarted term pkg) σ =
    {| stdout := stdout σ +:+ (PrefixWriter_Write sink text).1;
       heap := heap σ ++ [(PrefixWriter_Write sink text).2];
       writer := <[FullName pkg := length (heap σ)]> (writer σ);
       ops := ops σ ++ [MuLock; MapStore (FullName pkg); MuUnlock];
       debuglog := debuglog σ |}.
Proof.
  intros sink text. run. erewrite out_Write_new by done. simpl.
  by rewrite <- !app_assoc.
Qed.

Lemma PackageBuildLog_run_absent term pkg isErr buf σ :
  writer σ !! FullName pkg = None →
  let sink := NewPrefixWriter_value (ConsoleReporter.getRunPrefix term pkg) in
  exec (ConsoleReporter.PackageBuildLog term pkg isErr buf) σ =
    {| stdout := stdout σ +:+ (PrefixWriter_Write sink buf).1;
       heap := heap σ ++ [(PrefixWriter_Write sink buf).2];
       writer := <[FullName pkg := length (heap σ)]> (writer σ);
       ops := ops σ ++ [MuRLock; MapLoad (FullName pkg); MuRUnlock;
                        MuLock; MapStore (FullName pkg); MuUnlock];
       debuglog := debuglog σ
         ++ [(FullName pkg, "saw build log output before the build started")] |}.
Proof.
  intros Habsent sink. run. rewrite Habsent. simpl.
  erewrite out_Write_new by done. simpl. by rewrite <- !app_assoc.
Qed.

Lemma PackageBuildLog_run_present term pkg isErr buf σ out w :
  writer σ !! FullName pkg = Some out →
  heap σ !! out = Some w →
  exec (ConsoleReporter.PackageBuildLog term pkg isErr buf) σ =
    {| stdout := stdout σ +:+ (PrefixWriter_Write w buf).1;
       heap := <[out := (PrefixWriter_Write w buf).2]> (heap σ);
       writer := writer σ;
       ops := ops σ ++ [MuRLock; MapLoad (FullName pkg); MuRUnlock];
       debuglog := debuglog σ |}.
Proof.
  intros Hfound Hw. run. rewrite Hfound. simpl.
  erewrite out_Write_present by done. simpl. by rewrite <- !app_assoc.
Qed.

Lemma PackageBuildFinished_msg term (err : option error) :
  match err with
  | None => ConsoleReporter.color_Render term ("<green>package build succeded</>" +:+ LF)
  | Some e =>
      ConsoleReporter.color_Sprintf term
        ("<red>package build failed</>" +:+ LF +:+ "<white>Reason:</> " +:+ e +:+ LF)
  end
  = Render term
      match err with
      | None => "<green>package build succeded</>" +:+ LF
      | Some e => "<red>package build failed</>" +:+ LF +:+ "<white>Reason:</> " +:+ e +:+ LF
      end.
Proof. by destruct err. Qed.

Lemma PackageBuildFinished_run_absent term pkg err σ :
  writer σ !! FullName pkg = None →
  let sink := NewPrefixWriter_value (ConsoleReporter.getRunPrefix term pkg) in
  let msg := Render term (finished_text err) in
  exec (ConsoleReporter.PackageBuildFinished term pkg err) σ =
    {| stdout := stdout σ +:+ (PrefixWriter_Write sink msg).1;
       heap := heap σ ++ [(PrefixWriter_Write sink msg).2];
       writer := delete (FullName pkg) (writer σ);
       ops := ops σ ++ [MuRLock; MapLoad (FullName pkg); MuRUnlock;
                        MapDelete (FullName pkg)];
       debuglog := debuglog σ |}.
Proof.
  intros Habsent sink msg. unfold ConsoleReporter.PackageBuildFinished.
  rewrite PackageBuildFinished_msg. fold (finished_text err). fold msg.
  run. rewrite Habsent. simpl.
  erewrite out_Write_new by done. simpl. by rewrite <- !app_assoc.
Qed.

Lemma PackageBuildFinished_run_present term pkg err σ out w :
  writer σ !! FullName pkg = Some out →
  heap σ !! out = Some w →
  let msg := Render term (finished_text err) in
  exec (ConsoleReporter.PackageBuildFinished term pkg err) σ =
    {| stdout := stdout σ +:+ (PrefixWriter_Write w msg).1;
       heap := <[out := (PrefixWriter_Write w msg).2]> (heap σ);
       writer := delete (FullName pkg) (writer σ);
       ops := ops σ ++ [MuRLock; MapLoad (FullName pkg); MuRUnlock;
                        MapDelete (FullName pkg)];
       debuglog := debuglog σ |}.
Proof.
  intros Hfound Hw msg. unfold ConsoleReporter.PackageBuildFinished.
  rewrite PackageBuildFinished_msg. fold (finished_text err). fold msg.
  run. rewrite Hfound. simpl.
  erewrite out_Write_present by done. simpl. by rewrite <- !app_assoc.
Qed.

Lemma deliver_all_app {W} (r : Reporter.t W) (cs1 cs2 : list Call) (w : W) :
  deliver_all r (cs1 ++ cs2) w = deliver_all r cs2 (deliver_all r cs1 w).
Proof. apply foldl_app. Qed.

Lemma deliver_all_cons {W} (r : Reporter.t W) (c : Call) (cs : list Call) (w : W) :
  deliver_all r (c :: cs) w = deliver_all r cs (deliver r c w).
Proof. done. Qed.

(** ** The mutex over a whole run *)

Lemma held_after_app (held : MuHeld) (t1 t2 : list RegistryOp) :
  held_after held (t1 ++ t2)
  = match held_after held t1 with
    | Some held' => held_after held' t2
    | None => None
    end.
Proof.
  revert held. induction t1 as [|op t1 IH]; intros held; [done|].
  simpl. destruct (mu_step held op); [apply IH|done].
Qed.

(** The mutex operations of one call pair up: each lock the call takes is
    released by the matching unlock before the next one is taken. *)
Lemma call_mutex term (c : Call) (σ : World) :
  ∃ trace,
    ops (deliver (ConsoleReporter.reporter term) c σ) = ops σ ++ trace
    ∧ held_after mu_free trace = Some mu_free.
Proof.
  rewrite deliver_console.
  destruct c as [pkg status|pkg err|pkg|pkg isErr buf|pkg err].
  - exists []. by rewrite app_nil_r.
  - exists []. rewrite app_nil_r. by destruct err.
  - eexists. split; [apply PackageBuildStarted_ops|done].
  - eexists. split; [apply PackageBuildLog_ops|].
    by destruct (writer σ !! FullName pkg).
  - eexists. split; [apply PackageBuildFinished_ops|done].
Qed.

(** The operations of one call keep the discipline unless the call is
    [PackageBuildFinished], and hand the mutex on as they found it. *)
Lemma call_trace term (c : Call) (σ : World) :
  ∃ trace,
    ops (deliver (ConsoleReporter.reporter term) c σ) = ops σ ++ trace
    ∧ ∀ rest,
        disciplined Unlocked (trace ++ rest)
        = negb (is_PackageBuildFinished c) && disciplined Unlocked rest.
Proof.
  rewrite deliver_console.
  destruct c as [pkg status|pkg err|pkg|pkg isErr buf|pkg err].
  - exists []. by rewrite app_nil_r.
  - exists []. rewrite app_nil_r. by destruct err.
  - eexists. split; [apply PackageBuildStarted_ops|done].
  - eexists. split; [apply PackageBuildLog_ops|].
    by destruct (writer σ !! FullName pkg).
  - eexists. split; [apply PackageBuildFinished_ops|done].
Qed.

Lemma run_trace term (calls : list Call) (σ : World) :
  ∃ trace,
    ops (deliver_all (ConsoleReporter.reporter term) calls σ) = ops σ ++ trace
    ∧ ∀ rest,
        disciplined Unlocked (trace ++ rest)
        = negb (existsb is_PackageBuildFinished calls) && disciplined Unlocked rest.
Proof.
  revert σ. induction calls as [|c calls IH]; intros σ.
  { exists []. by rewrite app_nil_r. }
  rewrite deliver_all_cons.
  destruct (call_trace term c σ) as (t1 & Hops1 & Hdisc1).
  destruct (IH (deliver (ConsoleReporter.reporter term) c σ)) as (t2 & Hops2 & Hdisc2).
  exists (t1 ++ t2). rewrite Hops2, Hops1, <- app_assoc. split; [done|].
  intros rest. rewrite <- app_assoc, Hdisc1, Hdisc2. simpl.
  by rewrite negb_orb, andb_assoc.
Qed.

(** X1.  Whatever calls a run consists of and whatever state it starts
    from, the mutex operations the reporter adds can all be carried out by
    a goroutine that holds nothing of [r.mu] (no unlock without its lock,
    no lock taken while one is held), and they leave it holding nothing:
    no call returns while holding [r.mu], for reading or for writing. *)
Theorem mutex_free_after_run term (calls : list Call) (σ : World) :
  ∃ trace,
    ops (deliver_all (ConsoleReporter.reporter term) calls σ) = ops σ ++ trace
    ∧ held_after mu_free trace = Some mu_free.
Proof.
  revert σ. induction calls as [|c calls IH]; intros σ.
  { exists []. by rewrite app_nil_r. }
  rewrite deliver_all_cons.
  destruct (call_mutex term c σ) as (t1 & Hops1 & Hheld1).
  destruct (IH (deliver (ConsoleReporter.reporter term) c σ)) as (t2 & Hops2 & Hheld2).
  exists (t1 ++ t2). rewrite Hops2, Hops1, <- app_assoc. split; [done|].
  by rewrite held_after_app, Hheld1.
Qed.

(** X2.  A run on a new reporter keeps the locking discipline (loads under
    a lock, stores and deletes under the exclusive lock) exactly when it
    contains no [PackageBuildFinished]: the other four calls always keep
    it, and one [PackageBuildFinished] anywhere in the run breaks it. *)
Theorem run_disciplined_iff_no_finished term (calls : list Call) :
  disciplined Unlocked
    (ops (deliver_all (ConsoleReporter.reporter term) calls NewConsoleReporter))
  = negb (existsb is_PackageBuildFinished calls).
Proof.
  destruct (run_trace term calls NewConsoleReporter) as (trace & Hops & Hdisc).
  rewrite Hops. simpl. rewrite <- (app_nil_r trace), Hdisc. simpl.
  by rewrite andb_true_r.
Qed.

(** ** What a call adds to standard output *)

Lemma out_Write_stdout (out : nat) (buf : string) (σ : World) :
  ∃ suffix, stdout (out_Write out buf σ).2 = stdout σ +:+ suffix ∧ whole_lines suffix.
Proof.
  unfold out_Write. destruct (heap σ !! out) as [w|]; simpl.
  - eexists. split; [done|]. apply PrefixWriter_Write_whole_lines.
  - exists EmptyString. rewrite app_nil_r_string. split; [done|by left].
Qed.

Lemma call_stdout term (c : Call) (σ : World) :
  ∃ suffix,
    stdout (deliver (ConsoleReporter.reporter term) c σ) = stdout σ +:+ suffix
    ∧ (package_scoped c = true → whole_lines suffix).
Proof.
  rewrite deliver_console.
  destruct c as [pkg status|pkg err|pkg|pkg isErr buf|pkg err].
  - eexists. split; [reflexivity|done].
  - destruct err; (eexists; split; [reflexivity|done]).
  - rewrite PackageBuildStarted_run. simpl. eexists. split; [done|].
    intros _. apply PrefixWriter_Write_whole_lines.
  - run. destruct (writer σ !! FullName pkg); simpl.
    + edestruct out_Write_stdout as (suffix & -> & Hlines). simpl. by exists suffix.
    + edestruct out_Write_stdout as (suffix & -> & Hlines). simpl. by exists suffix.
  - run. destruct (writer σ !! FullName pkg); simpl.
    + edestruct out_Write_stdout as (suffix & -> & Hlines). simpl. by exists suffix.
    + edestruct out_Write_stdout as (suffix & -> & Hlines). simpl. by exists suffix.
Qed.

(** X4.  The three package-scoped calls print whole lines only: what a
    [PackageBuildStarted], [PackageBuildLog] or [PackageBuildFinished] adds
    to standard output is nothing at all or ends in a line feed, however
    the log bytes are cut. *)
Theorem package_output_whole_lines term (c : Call) (σ : World) :
  package_scoped c = true →
  ∃ suffix,
    stdout (deliver (ConsoleReporter.reporter term) c σ) = stdout σ +:+ suffix
    ∧ whole_lines suffix.
Proof.
  intros Hc. destruct (call_stdout term c σ) as (suffix & Hs & Hlines).
  exists suffix. auto.
Qed.

Lemma package_output_whole_lines_witness :
  let pkg := {| FullName := "core:app"; Version := VersionOk "7" |} in
  ∃ suffix,
    stdout (exec (ConsoleReporter.PackageBuildLog plain pkg false ("a" +:+ LF +:+ "b"))
              NewConsoleReporter) = EmptyString +:+ suffix
    ∧ whole_lines suffix.
Proof.
  intros pkg.
  apply (package_output_whole_lines plain
           (CallPackageBuildLog pkg false ("a" +:+ LF +:+ "b")) NewConsoleReporter).
  reflexivity.
Defined.

(** X5.  A debug note is written in one situation only: a
    [PackageBuildLog] that finds no sink for its package adds exactly one
    entry, with the package's full name; every other call, and a
    [PackageBuildLog] that finds a sink, leaves the debug log as it was. *)
Theorem debuglog_only_on_early_log term (c : Call) (σ : World) :
  debuglog (deliver (ConsoleReporter.reporter term) c σ)
  = debuglog σ ++ early_log_note c σ.
Proof.
  rewrite deliver_console. unfold early_log_note.
  destruct c as [pkg status|pkg err|pkg|pkg isErr buf|pkg err].
  - by rewrite app_nil_r.
  - rewrite app_nil_r. by destruct err.
  - by rewrite PackageBuildStarted_run, app_nil_r.
  - run. destruct (writer σ !! FullName pkg); simpl; rewrite out_Write_debuglog; simpl.
    + by rewrite app_nil_r.
    + done.
  - run. rewrite app_nil_r.
    destruct (writer σ !! FullName pkg); simpl; by rewrite out_Write_debuglog.
Qed.

(** ** Invariants of the registry *)

Lemma sinks_prefixed_deliver term (c : Call) (σ : World) :
  sinks_prefixed term σ → sinks_prefixed term (deliver (ConsoleReporter.reporter term) c σ).
Proof.
  intros Hinv nme out. rewrite deliver_console.
  destruct c as [pkg status|pkg err|pkg|pkg isErr buf|pkg err].
  - apply Hinv.
  - destruct err; apply Hinv.
  - rewrite PackageBuildStarted_run. simpl.
    intros [[<- <-]|[_ H]]%lookup_insert_Some.
    + rewrite list_lookup_middle by done. eexists. split; [done|].
      by rewrite PrefixWriter_Write_indent.
    + destruct (Hinv _ _ H) as (w & Hw & Hind). exists w.
      by rewrite lookup_app_l by (by eapply lookup_lt_Some).
  - destruct (writer σ !! FullName pkg) as [o|] eqn:E.
    + destruct (Hinv _ _ E) as (wo & Hwo & _).
      rewrite (PackageBuildLog_run_present _ _ _ _ _ _ _ E Hwo). simpl. intros H.
      destruct (Hinv _ _ H) as (w & Hw & Hind).
      destruct (decide (o = out)) as [->|Hne].
      * rewrite list_lookup_insert_eq by (by eapply lookup_lt_Some).
        eexists. split; [done|]. rewrite PrefixWriter_Write_indent. congruence.
      * rewrite list_lookup_insert_ne by done. eauto.
    + rewrite PackageBuildLog_run_absent by done. simpl.
      intros [[<- <-]|[_ H]]%lookup_insert_Some.
      * rewrite list_lookup_middle by done. eexists. split; [done|].
        by rewrite PrefixWriter_Write_indent.
      * destruct (Hinv _ _ H) as (w & Hw & Hind). exists w.
        by rewrite lookup_app_l by (by eapply lookup_lt_Some).
  - destruct (writer σ !! FullName pkg) as [o|] eqn:E.
    + destruct (Hinv _ _ E) as (wo & Hwo & _).
      rewrite (PackageBuildFinished_run_present _ _ _ _ _ _ E Hwo). simpl.
      intros [_ H]%lookup_delete_Some.
      destruct (Hinv _ _ H) as (w & Hw & Hind).
      destruct (decide (o = out)) as [->|Hne].
      * rewrite list_lookup_insert_eq by (by eapply lookup_lt_Some).
        eexists. split; [done|]. rewrite PrefixWriter_Write_indent. congruence.
      * rewrite list_lookup_insert_ne by done. eauto.
    + rewrite PackageBuildFinished_run_absent by done. simpl.
      intros [_ H]%lookup_delete_Some.
      destruct (Hinv _ _ H) as (w & Hw & Hind). exists w.
      by rewrite lookup_app_l by (by eapply lookup_lt_Some).
Qed.

(** X7.  At every point of a run on a new reporter, each name in the
    registry points to an allocated sink whose prefix is the gray
    "[<that name>] ": a package's lines can only come out under its own
    name. *)
Theorem registry_sinks_prefixed term (calls : list Call) :
  sinks_prefixed term (deliver_all (ConsoleReporter.reporter term) calls NewConsoleReporter).
Proof.
  assert (∀ σ, sinks_prefixed term σ →
               sinks_prefixed term (deliver_all (ConsoleReporter.reporter term) calls σ)) as H.
  { induction calls as [|c calls IH]; intros σ Hinv; [done|].
    rewrite deliver_all_cons. by apply IH, sinks_prefixed_deliver. }
  apply H. intros nme out. simpl. by rewrite lookup_empty.
Qed.

Lemma registry_sinks_prefixed_witness :
  let pkg := {| FullName := "core:app"; Version := VersionOk "7" |} in
  let lib := {| FullName := "core:lib"; Version := VersionErr "no git" |} in
  let σ := deliver_all (ConsoleReporter.reporter plain)
             [CallPackageBuildLog pkg false "half"; CallPackageBuildStarted lib;
              CallPackageBuildLog pkg true ("done" +:+ LF)] NewConsoleReporter in
  ∃ w, heap σ !! 1 = Some w ∧ indent w = "[core:lib] ".
Proof.
  intros pkg lib σ.
  apply (registry_sinks_prefixed plain
           [CallPackageBuildLog pkg false "half"; CallPackageBuildStarted lib;
            CallPackageBuildLog pkg true ("done" +:+ LF)] "core:lib" 1).
  vm_compute. reflexivity.
Defined.

Lemma sinks_not_shared_deliver term (c : Call) (σ : World) :
  wf_World σ → sinks_not_shared σ →
  sinks_not_shared (deliver (ConsoleReporter.reporter term) c σ).
Proof.
  intros Hwf Hinj nme1 nme2 out. rewrite deliver_console.
  assert (∀ nme, writer σ !! nme ≠ Some (length (heap σ))) as Hfresh.
  { intros nme H. apply Hwf in H. lia. }
  destruct c as [pkg status|pkg err|pkg|pkg isErr buf|pkg err].
  - apply Hinj.
  - destruct err; apply Hinj.
  - rewrite PackageBuildStarted_writer.
    intros [[<- <-]|[_ H1]]%lookup_insert_Some [[<- E]|[_ H2]]%lookup_insert_Some;
      try done; try (by eapply Hinj); subst; by edestruct Hfresh.
  - rewrite PackageBuildLog_writer. destruct (writer σ !! FullName pkg); [apply Hinj|].
    intros [[<- <-]|[_ H1]]%lookup_insert_Some [[<- E]|[_ H2]]%lookup_insert_Some;
      try done; try (by eapply Hinj); subst; by edestruct Hfresh.
  - rewrite PackageBuildFinished_writer.
    intros [_ H1]%lookup_delete_Some [_ H2]%lookup_delete_Some. by eapply Hinj.
Qed.

(** X8.  At every point of a run on a new reporter, two different names
    never point to the same sink, and every pointer in the registry is an
    allocated sink: the pending bytes of one package cannot end up in a
    line of another. *)
Theorem registry_sinks_not_shared term (calls : list Call) :
  let σ := deliver_all (ConsoleReporter.reporter term) calls NewConsoleReporter in
  sinks_not_shared σ ∧ wf_World σ.
Proof.
  assert (∀ σ, sinks_not_shared σ ∧ wf_World σ →
               sinks_not_shared (deliver_all (ConsoleReporter.reporter term) calls σ)
               ∧ wf_World (deliver_all (ConsoleReporter.reporter term) calls σ)) as H.
  { induction calls as [|c calls IH]; intros σ [Hinj Hwf]; [done|].
    rewrite deliver_all_cons. apply IH. split.
    - by apply sinks_not_shared_deliver.
    - by apply wf_World_deliver. }
  apply H. split; [|apply wf_World_new].
  intros nme1 nme2 out. simpl. by rewrite lookup_empty.
Qed.

Lemma registry_sinks_not_shared_witness :
  let pkg := {| FullName := "core:app"; Version := VersionOk "7" |} in
  let lib := {| FullName := "core:lib"; Version := VersionErr "no git" |} in
  let σ := deliver_all (ConsoleReporter.reporter plain)
             [CallPackageBuildStarted pkg; CallPackageBuildStarted lib;
              CallPackageBuildStarted pkg] NewConsoleReporter in
  2 < length (heap σ) ∧ writer σ !! "core:lib" ≠ Some 2.
Proof.
  intros pkg lib σ.
  destruct (registry_sinks_not_shared plain
              [CallPackageBuildStarted pkg; CallPackageBuildStarted lib;
               CallPackageBuildStarted pkg]) as [Hinj Hwf].
  split.
  - apply (Hwf "core:app" 2). vm_compute. reflexivity.
  - intros Hlib.
    assert ("core:lib" = "core:app") as Heq; [|discriminate Heq].
    apply (Hinj "core:lib" "core:app" 2 Hlib). vm_compute. reflexivity.
Defined.

(** ** One package does not disturb another *)

Lemma sinks_not_shared_new : sinks_not_shared NewConsoleReporter.
Proof. intros nme1 nme2 out. simpl. by rewrite lookup_empty. Qed.

(** X6.  A call leaves the packages it is not about alone: in a state
    where registry pointers are allocated and not shared, a name other
    than the one the call creates or deletes keeps its registry entry, and
    the sink it points to is exactly as before, pending bytes included.
    The two build-scoped calls leave every registered sink alone. *)
Theorem other_sinks_untouched term (c : Call) (σ : World) (nme : string) (out : nat) :
  wf_World σ →
  sinks_not_shared σ →
  writer σ !! nme = Some out →
  nme ∉ created c ∪ destroyed c →
  let σ' := deliver (ConsoleReporter.reporter term) c σ in
  writer σ' !! nme = Some out ∧ heap σ' !! out = heap σ !! out.
Proof.
  intros Hwf Hinj Hnme Hother σ'. subst σ'. rewrite deliver_console.
  pose proof (Hwf _ _ Hnme) as Hlt.
  destruct c as [pkg status|pkg err|pkg|pkg isErr buf|pkg err]; simpl in Hother.
  - done.
  - by destruct err.
  - assert (FullName pkg ≠ nme) as Hne by set_solver.
    rewrite PackageBuildStarted_run. simpl.
    by rewrite lookup_insert_ne, lookup_app_l.
  - assert (FullName pkg ≠ nme) as Hne by set_solver.
    destruct (writer σ !! FullName pkg) as [o|] eqn:Hfound.
    + destruct (lookup_lt_is_Some_2 (heap σ) o) as [w Hw]; [by eapply Hwf|].
      rewrite (PackageBuildLog_run_present _ _ _ _ _ _ _ Hfound Hw). simpl.
      split; [done|]. apply list_lookup_insert_ne. intros ->. by eapply Hne, Hinj.
    + rewrite (PackageBuildLog_run_absent _ _ _ _ _ Hfound). simpl.
      by rewrite lookup_insert_ne, lookup_app_l.
  - assert (FullName pkg ≠ nme) as Hne by set_solver.
    destruct (writer σ !! FullName pkg) as [o|] eqn:Hfound.
    + destruct (lookup_lt_is_Some_2 (heap σ) o) as [w Hw]; [by eapply Hwf|].
      rewrite (PackageBuildFinished_run_present _ _ _ _ _ _ Hfound Hw). simpl.
      rewrite lookup_delete_ne by done.
      split; [done|]. apply list_lookup_insert_ne. intros ->. by eapply Hne, Hinj.
    + rewrite (PackageBuildFinished_run_absent _ _ _ _ Hfound). simpl.
      by rewrite lookup_delete_ne, lookup_app_l.
Qed.

Lemma other_sinks_untouched_witness :
  let pkg := {| FullName := "core:app"; Version := VersionOk "7" |} in
  let lib := {| FullName := "core:lib"; Version := VersionOk "3" |} in
  let σ := exec (ConsoleReporter.PackageBuildLog plain lib false "pending")
             (exec (ConsoleReporter.PackageBuildStarted plain pkg) NewConsoleReporter) in
  let σ' := deliver (ConsoleReporter.reporter plain)
              (CallPackageBuildLog pkg false ("line" +:+ LF)) σ in
  writer σ' !! "core:lib" = Some 1
  ∧ heap σ' !! 1 = Some {| indent := "[core:lib] "; buffer := "pending" |}.
Proof.
  intros pkg lib σ σ'.
  assert (writer σ !! "core:lib" = Some 1) as Hlib by (vm_compute; reflexivity).
  assert (heap σ !! 1 = Some {| indent := "[core:lib] "; buffer := "pending" |}) as Hpending
    by (vm_compute; reflexivity).
  assert (wf_World σ) as Hwf.
  { apply (wf_World_deliver plain (CallPackageBuildLog lib false "pending")),
      (wf_World_deliver plain (CallPackageBuildStarted pkg)), wf_World_new. }
  assert (sinks_not_shared σ) as Hinj.
  { apply (sinks_not_shared_deliver plain (CallPackageBuildLog lib false "pending")).
    - apply (wf_World_deliver plain (CallPackageBuildStarted pkg)), wf_World_new.
    - apply (sinks_not_shared_deliver plain (CallPackageBuildStarted pkg));
        [apply wf_World_new|apply sinks_not_shared_new]. }
  destruct (other_sinks_untouched plain (CallPackageBuildLog pkg false ("line" +:+ LF))
              σ "core:lib" 1 Hwf Hinj Hlib) as [Hentry Hsink].
  { simpl. rewrite elem_of_union, elem_of_singleton, elem_of_empty.
    intros [Heq|[]]. discriminate Heq. }
  clearbody σ. split; [exact Hentry|]. exact (eq_trans Hsink Hpending).
Defined.

(** ** Logging through a sink *)

(** X9.  When the package already has a sink, [PackageBuildLog] neither
    allocates, nor changes the registry, nor writes a debug note.  The
    pending bytes of the sink are completed by the first line of [buf] and
    go out behind the prefix, the further complete lines follow, each
    behind the prefix, and the bytes after the last line feed become the
    new pending bytes; without a line feed in [buf] nothing is printed and
    [buf] is added to the pending bytes.  Every other sink is untouched. *)
Theorem PackageBuildLog_through_sink term pkg isErr buf σ out w :
  writer σ !! FullName pkg = Some out →
  heap σ !! out = Some w →
  let σ' := exec (ConsoleReporter.PackageBuildLog term pkg isErr buf) σ in
  writer σ' = writer σ
  ∧ length (heap σ') = length (heap σ)
  ∧ debuglog σ' = debuglog σ
  ∧ stdout σ'
    = stdout σ +:+ match (split_lines buf).1 with
                   | [] => EmptyString
                   | l :: lines =>
                       indent w +:+ buffer w +:+ l +:+ LF
                       +:+ strings_Join (map (fun l => indent w +:+ l +:+ LF) lines)
                   end
  ∧ heap σ' !! out
    = Some {| indent := indent w;
              buffer := match (split_lines buf).1 with
                        | [] => buffer w +:+ (split_lines buf).2
                        | _ => (split_lines buf).2
                        end |}
  ∧ ∀ l, l ≠ out → heap σ' !! l = heap σ !! l.
Proof.
  intros Hfound Hw σ'. subst σ'.
  rewrite (PackageBuildLog_run_present _ _ _ _ _ _ _ Hfound Hw). simpl.
  split; [done|]. split; [by rewrite length_insert|]. split; [done|].
  rewrite list_lookup_insert_eq by (by eapply lookup_lt_Some).
  rewrite PrefixWriter_Write_lines.
  split; [by destruct (split_lines buf).1|].
  split; [by destruct (split_lines buf).1|].
  intros l Hne. by rewrite list_lookup_insert_ne.
Qed.

Lemma PackageBuildLog_through_sink_witness :
  let pkg := {| FullName := "core:app"; Version := VersionOk "7" |} in
  let σ := exec (ConsoleReporter.PackageBuildLog plain pkg false "he") NewConsoleReporter in
  let σ' := exec (ConsoleReporter.PackageBuildLog plain pkg true ("llo" +:+ LF +:+ "wor")) σ in
  stdout σ' = "[core:app] hello" +:+ LF
  ∧ heap σ' !! 0 = Some {| indent := "[core:app] "; buffer := "wor" |}.
Proof.
  intros pkg σ σ'.
  destruct (PackageBuildLog_through_sink plain pkg true ("llo" +:+ LF +:+ "wor") σ 0
              {| indent := "[core:app] "; buffer := "he" |} eq_refl eq_refl)
    as (_ & _ & _ & Hout & Hsink & _).
  fold σ' in Hout, Hsink. rewrite Hout, Hsink. split; reflexivity.
Defined.

Lemma PackageBuildLog_run_dangling term pkg isErr buf σ out :
  writer σ !! FullName pkg = Some out →
  heap σ !! out = None →
  exec (ConsoleReporter.PackageBuildLog term pkg isErr buf) σ =
    {| stdout := stdout σ; heap := heap σ; writer := writer σ;
       ops := ops σ ++ [MuRLock; MapLoad (FullName pkg); MuRUnlock];
       debuglog := debuglog σ |}.
Proof.
  intros Hfound Hw. run. rewrite Hfound. simpl.
  unfold out_Write. simpl. rewrite Hw. simpl. by rewrite <- !app_assoc.
Qed.

(** X10.  How the engine cuts a package's output into chunks does not
    show: logging [b1] and then [b2] for a package leaves standard
    output, the sinks, the registry and the debug log exactly as logging
    the bytes [b1] followed by [b2] in one call does, from any state and
    whether or not the package had a sink. *)
Theorem PackageBuildLog_chunks term pkg isErr1 isErr2 isErr b1 b2 σ :
  let σ2 := exec (ConsoleReporter.PackageBuildLog term pkg isErr2 b2)
              (exec (ConsoleReporter.PackageBuildLog term pkg isErr1 b1) σ) in
  let σ12 := exec (ConsoleReporter.PackageBuildLog term pkg isErr (b1 +:+ b2)) σ in
  stdout σ2 = stdout σ12 ∧ heap σ2 = heap σ12
  ∧ writer σ2 = writer σ12 ∧ debuglog σ2 = debuglog σ12.
Proof.
  intros σ2 σ12. subst σ2 σ12.
  destruct (writer σ !! FullName pkg) as [out|] eqn:Hfound.
  - destruct (heap σ !! out) as [w|] eqn:Hw.
    + rewrite (PackageBuildLog_run_present _ _ _ b1 _ _ _ Hfound Hw).
      erewrite (PackageBuildLog_run_present _ _ _ b2); [|exact Hfound|]; last first.
      { simpl. apply list_lookup_insert_eq. by eapply lookup_lt_Some. }
      rewrite (PackageBuildLog_run_present _ _ _ (b1 +:+ b2) _ _ _ Hfound Hw). simpl.
      rewrite PrefixWriter_Write_app, list_insert_insert_eq. simpl.
      by rewrite app_assoc_string.
    + rewrite (PackageBuildLog_run_dangling _ _ _ b1 _ _ Hfound Hw).
      rewrite (PackageBuildLog_run_dangling _ _ _ b2 _ out); [|exact Hfound|exact Hw].
      by rewrite (PackageBuildLog_run_dangling _ _ _ (b1 +:+ b2) _ _ Hfound Hw).
  - rewrite (PackageBuildLog_run_absent _ _ _ b1 _ Hfound).
    erewrite (PackageBuildLog_run_present _ _ _ b2); last first.
    { simpl. by apply list_lookup_middle. }
    { simpl. apply lookup_insert_eq. }
    rewrite (PackageBuildLog_run_absent _ _ _ (b1 +:+ b2) _ Hfound). simpl.
    rewrite PrefixWriter_Write_app. simpl.
    rewrite insert_app_r_alt by done. rewrite Nat.sub_diag. simpl.
    by rewrite app_assoc_string.
Qed.

(** ** One package build from start to finish *)

Lemma log_chunks_run term pkg (chunks : list (bool * string)) σ out w :
  writer σ !! FullName pkg = Some out →
  heap σ !! out = Some w →
  deliver_all (ConsoleReporter.reporter term)
    (map (fun chunk => CallPackageBuildLog pkg chunk.1 chunk.2) chunks) σ =
    {| stdout := stdout σ +:+ (PrefixWriter_Write w (strings_Join (map snd chunks))).1;
       heap := <[out := (PrefixWriter_Write w (strings_Join (map snd chunks))).2]> (heap σ);
       writer := writer σ;
       ops := ops σ ++ concat (map (fun _ => [MuRLock; MapLoad (FullName pkg); MuRUnlock])
                                 chunks);
       debuglog := debuglog σ |}.
Proof.
  revert σ w. induction chunks as [|[isErr buf] chunks IH]; intros σ w Hfound Hw.
  { simpl. rewrite app_nil_r_string, app_nil_r, list_insert_id by done. by destruct σ. }
  rewrite fmap_cons, deliver_all_cons, deliver_console.
  rewrite (PackageBuildLog_run_present _ _ _ _ _ _ _ Hfound Hw).
  erewrite IH; [|exact Hfound|]; last first.
  { simpl. apply list_lookup_insert_eq. by eapply lookup_lt_Some. }
  simpl. rewrite PrefixWriter_Write_app, list_insert_insert_eq. simpl.
  by rewrite app_assoc_string, <- app_assoc.
Qed.

(** X11.  A package build reported in order (started, any number of log
    chunks, finished) prints, from any state, exactly what one sink with
    the package's prefix prints for the "build started" line, the bytes of
    all chunks in order and the closing summary written in a row.  It
    allocates one sink, writes no debug note, and leaves the registry
    without an entry for the package. *)
Theorem package_build_output term pkg (chunks : list (bool * string)) err σ :
  let σ' := deliver_all (ConsoleReporter.reporter term) (package_build pkg chunks err) σ in
  let sink := NewPrefixWriter_value (ConsoleReporter.getRunPrefix term pkg) in
  let text := Render term (started_text pkg) +:+ strings_Join (map snd chunks)
              +:+ Render term (finished_text err) in
  stdout σ' = stdout σ +:+ (PrefixWriter_Write sink text).1
  ∧ heap σ' = heap σ ++ [(PrefixWriter_Write sink text).2]
  ∧ writer σ' = delete (FullName pkg) (writer σ)
  ∧ debuglog σ' = debuglog σ.
Proof.
  intros σ' sink text. subst σ' text. unfold package_build.
  rewrite deliver_all_cons, deliver_all_app.
  change (deliver_all ?r [?c] ?s) with (deliver r c s).
  rewrite !deliver_console.
  rewrite PackageBuildStarted_run. fold sink. fold (started_text pkg).
  erewrite log_chunks_run; last first.
  { simpl. by apply list_lookup_middle. }
  { simpl. apply lookup_insert_eq. }
  erewrite PackageBuildFinished_run_present; last first.
  { simpl. rewrite insert_app_r_alt by done. rewrite Nat.sub_diag. simpl.
    by apply list_lookup_middle. }
  { simpl. apply lookup_insert_eq. }
  simpl. rewrite !PrefixWriter_Write_app. simpl.
  rewrite !insert_app_r_alt by (by rewrite ?length_app, ?length_insert).
  rewrite Nat.sub_diag. simpl.
  split; [by rewrite !app_assoc_string|]. split; [done|]. split; [|done].
  by rewrite delete_insert_eq.
Qed.

(** ** Pending bytes at the end and at a restart *)

Lemma split_lines_line_end (t : string) : (split_lines (t +:+ LF)).1 ≠ [].
Proof.
  induction t as [|c t IH]; [done|].
  rewrite app_cons_string. simpl.
  destruct (split_lines (t +:+ LF)) as [[|l lines] rest]; [done|].
  by destruct (Ascii.eqb c newline).
Qed.

(** X12.  When the rendered summary ends in a line feed, a
    [PackageBuildFinished] that finds the package's sink prints what was
    pending in it, behind the prefix and in front of the summary, and
    leaves that sink with no pending bytes: the last unfinished line of a
    build is not lost at its end. *)
Theorem PackageBuildFinished_flushes term pkg err σ out w t :
  writer σ !! FullName pkg = Some out →
  heap σ !! out = Some w →
  Render term (finished_text err) = t +:+ LF →
  let σ' := exec (ConsoleReporter.PackageBuildFinished term pkg err) σ in
  heap σ' !! out = Some {| indent := indent w; buffer := EmptyString |}
  ∧ ∃ rest, stdout σ' = stdout σ +:+ indent w +:+ buffer w +:+ rest.
Proof.
  intros Hfound Hw Htext σ'. subst σ'.
  rewrite (PackageBuildFinished_run_present _ _ _ _ _ _ Hfound Hw). simpl.
  rewrite list_lookup_insert_eq by (by eapply lookup_lt_Some).
  rewrite Htext. split.
  - f_equal. pose proof (PrefixWriter_Write_indent w (t +:+ LF)).
    pose proof (PrefixWriter_Write_line_end w t).
    destruct (PrefixWriter_Write w (t +:+ LF)).2. simpl in *. congruence.
  - rewrite PrefixWriter_Write_lines.
    pose proof (split_lines_line_end t).
    destruct (split_lines (t +:+ LF)).1 as [|l lines]; [done|]. simpl. eauto.
Qed.

Lemma PackageBuildFinished_flushes_witness :
  let pkg := {| FullName := "core:app"; Version := VersionOk "7" |} in
  let σ := exec (ConsoleReporter.PackageBuildLog plain pkg false "half") NewConsoleReporter in
  let σ' := exec (ConsoleReporter.PackageBuildFinished plain pkg None) σ in
  heap σ' !! 0 = Some {| indent := "[core:app] "; buffer := EmptyString |}
  ∧ ∃ rest, stdout σ' = EmptyString +:+ "[core:app] " +:+ "half" +:+ rest.
Proof.
  intros pkg σ σ'.
  apply (PackageBuildFinished_flushes plain pkg None σ 0
           {| indent := "[core:app] "; buffer := "half" |} "package build succeded");
    reflexivity.
Defined.

(** X13.  Bytes logged before [PackageBuildStarted] that do not end a
    line are lost: the early [PackageBuildLog] prints nothing and keeps
    them pending in the sink it creates; [PackageBuildStarted] then
    registers a new sink and prints only its own line, and the sink that
    holds the bytes is no longer reachable from any name of the registry. *)
Theorem early_partial_line_stranded term pkg isErr buf σ :
  wf_World σ →
  writer σ !! FullName pkg = None →
  (split_lines buf).1 = [] →
  let σ1 := exec (ConsoleReporter.PackageBuildLog term pkg isErr buf) σ in
  let σ2 := exec (ConsoleReporter.PackageBuildStarted term pkg) σ1 in
  let prefix := ConsoleReporter.getRunPrefix term pkg in
  stdout σ1 = stdout σ
  ∧ stdout σ2
    = stdout σ +:+ (PrefixWriter_Write (NewPrefixWriter_value prefix)
                      (Render term (started_text pkg))).1
  ∧ heap σ2 !! length (heap σ) = Some {| indent := prefix; buffer := buf |}
  ∧ ∀ nme, writer σ2 !! nme ≠ Some (length (heap σ)).
Proof.
  intros Hwf Habsent Hlines σ1 σ2 prefix. subst σ1 σ2.
  assert ((split_lines buf).2 = buf) as Hrest.
  { pose proof (split_lines_lossless buf) as H. by rewrite Hlines in H. }
  rewrite PackageBuildStarted_run, (PackageBuildLog_run_absent _ _ _ _ _ Habsent). simpl.
  rewrite PrefixWriter_Write_fresh, Hlines, Hrest. simpl.
  split; [by rewrite app_nil_r_string|]. split; [by rewrite app_nil_r_string|]. split.
  - rewrite lookup_app_l by (rewrite length_app; simpl; lia).
    by apply list_lookup_middle.
  - intros nme. rewrite length_app, insert_insert_eq. simpl.
    intros [[_ H]|[_ H]]%lookup_insert_Some; [lia|].
    apply Hwf in H. lia.
Qed.

Lemma early_partial_line_stranded_witness :
  let pkg := {| FullName := "core:app"; Version := VersionOk "7" |} in
  let σ2 := exec (ConsoleReporter.PackageBuildStarted plain pkg)
              (exec (ConsoleReporter.PackageBuildLog plain pkg false "half")
                 NewConsoleReporter) in
  stdout σ2 = "[core:app] build started (version 7)" +:+ LF
  ∧ heap σ2 !! 0 = Some {| indent := "[core:app] "; buffer := "half" |}
  ∧ writer σ2 !! "core:app" ≠ Some 0.
Proof.
  intros pkg σ2.
  destruct (early_partial_line_stranded plain pkg false "half" NewConsoleReporter
              wf_World_new eq_refl eq_refl) as (_ & Hout & Hsink & Hreg).
  fold σ2 in Hout, Hsink, Hreg. split; [|split].
  - rewrite Hout. reflexivity.
  - exact Hsink.
  - apply Hreg.
Defined.

(** ** Composites of composites *)

Lemma in_list_order_app {W} (xs ys : list (Reporter.t W)) (c : Call) (w : W) :
  in_list_order (xs ++ ys) c w = in_list_order ys c (in_list_order xs c w).
Proof. apply foldl_app. Qed.

(** X14.  Nesting composites changes nothing: a [CompositeReporter] whose
    children are themselves composites over the groups [g1, g2, ...]
    treats every call exactly as one flat composite over the children of
    [g1], then those of [g2], and so on. *)
Theorem CompositeReporter_flatten {W} (groups : list (list (Reporter.t W)))
    (c : Call) (w : W) :
  deliver (CompositeReporter.reporter (map CompositeReporter.reporter groups)) c w
  = deliver (CompositeReporter.reporter (concat groups)) c w.
Proof.
  rewrite !deliver_composite. revert w.
  induction groups as [|g groups IH]; intros w; [done|].
  rewrite fmap_cons. simpl concat. rewrite in_list_order_app, <- IH.
  unfold in_list_order at 1 3. simpl. by rewrite deliver_composite.
Qed.

(** X15.  The composite adds nothing of its own to what its children do:
    a property of the state that each child keeps on a call is kept by the
    composite on that call. *)
Theorem CompositeReporter_keeps {W} (P : W → Prop) (Children : list (Reporter.t W))
    (c : Call) (w : W) :
  (∀ r, r ∈ Children → ∀ w', P w' → P (deliver r c w')) →
  P w →
  P (deliver (CompositeReporter.reporter Children) c w).
Proof.
  rewrite deliver_composite. unfold in_list_order. revert w.
  induction Children as [|r rest IH]; intros w Hkeep Hw; [done|].
  simpl. apply IH.
  - intros r' Hin. apply Hkeep. by right.
  - apply Hkeep; [by left|done].
Qed.

Lemma CompositeReporter_keeps_witness :
  let pkg := {| FullName := "core:app"; Version := VersionOk "7" |} in
  wf_World
    (deliver (CompositeReporter.reporter
                [ConsoleReporter.reporter plain; ConsoleReporter.reporter plain])
       (CallPackageBuildStarted pkg) NewConsoleReporter).
Proof.
  intros pkg. apply (CompositeReporter_keeps wf_World).
  - intros r Hin w' Hw'.
    apply list_elem_of_In in Hin. simpl in Hin.
    destruct Hin as [<-|[<-|[]]]; by apply wf_World_deliver.
  - apply wf_World_new.
Defined.

(** ** Log output that arrives before the start *)

(** C4.  The specification promises that log bytes which arrive before
    [PackageBuildStarted] are never dropped.  The code drops them when
    they do not end a line.  On a new reporter, for every terminal and
    package, an early [PackageBuildLog] of "half" prints nothing and parks
    the bytes in the sink it registers; [PackageBuildStarted] does not look
    that sink up, as [PackageBuildLog] and [PackageBuildFinished] do, but
    stores a new one over it, so the registry forgets the only sink that
    holds the bytes.  Run to its end on a terminal without colour, the
    build prints its other lines and never the early bytes. *)
Theorem early_log_bytes_dropped term pkg isErr :
  let prefix := ConsoleReporter.getRunPrefix term pkg in
  let σ1 := exec (ConsoleReporter.PackageBuildLog term pkg isErr "half") NewConsoleReporter in
  let σ2 := exec (ConsoleReporter.PackageBuildStarted term pkg) σ1 in
  let app := {| FullName := "core:app"; Version := VersionOk "7" |} in
  let printed :=
    stdout (deliver_all (ConsoleReporter.reporter plain)
              [CallPackageBuildLog app false "half"; CallPackageBuildStarted app;
               CallPackageBuildLog app false ("rest" +:+ LF);
               CallPackageBuildFinished app None] NewConsoleReporter) in
  stdout σ1 = EmptyString
  ∧ heap σ1 = [{| indent := prefix; buffer := "half" |}]
  ∧ writer σ1 = {[ FullName pkg := 0 ]}
  ∧ writer σ2 = {[ FullName pkg := 1 ]}
  ∧ heap σ2 !! 0 = Some {| indent := prefix; buffer := "half" |}
  ∧ printed = "[core:app] build started (version 7)" +:+ LF
              +:+ "[core:app] rest" +:+ LF
              +:+ "[core:app] package build succeded" +:+ LF
  ∧ strings_Contains printed "half" = false.
Proof.
  intros prefix σ1 σ2 app printed.
  assert (printed = "[core:app] build started (version 7)" +:+ LF
                    +:+ "[core:app] rest" +:+ LF
                    +:+ "[core:app] package build succeded" +:+ LF) as Hprinted
    by (vm_compute; reflexivity).
  clearbody printed. subst printed.
  assert (writer NewConsoleReporter !! FullName pkg = None) as Habsent.
  { simpl. apply lookup_empty. }
  subst σ2 σ1.
  rewrite PackageBuildStarted_run, (PackageBuildLog_run_absent _ _ _ _ _ Habsent).
  cbn [stdout heap writer NewConsoleReporter length app].
  rewrite insert_insert_eq, !insert_empty.
  split; [done|]. split; [done|]. split; [done|]. split; [done|].
  split; [done|]. split; [done|]. vm_compute. reflexivity.
Qed.
